(** * drf_boilerplate: registration and per-user task resource

    A shallow embedding of [src/users/views.py] and [src/tasks/views.py].
    The two modules are thin Django REST framework (DRF) controllers, so the
    development has three layers:

    - the data the views handle (request, response, exceptions, rows);
    - the part of the framework the views inherit from (class attribute
      lookup, permissions, filter backends, the generic mixin actions);
    - the two view classes themselves, with the names they have in the
      source, and the properties of the specification proved about them. *)

From stdpp Require Import base option list gmap strings fin_maps.
From Stdlib Require Import ZArith Ascii String.

Local Open Scope Z_scope.
Local Open Scope string_scope.

(** ** Values and dictionaries *)

(** [datetime.date] *)
Record date := mkdate { year : Z; month : Z; day : Z }.

Global Instance date_eq_dec : EqDecision date.
Proof. solve_decision. Defined.

(** The Python values that travel through request bodies, validated data and
    response bodies.  [VUser u] is a [User] instance (by primary key),
    [VAnonymous] is [AnonymousUser]. *)
Inductive value :=
  | VNone
  | VBool (b : bool)
  | VInt (z : Z)
  | VStr (s : string)
  | VDate (d : date)
  | VUser (u : Z)
  | VAnonymous.

Global Instance value_eq_dec : EqDecision value.
Proof. solve_decision. Defined.

(** A Python [dict] with string keys. *)
Abbreviation dict := (gmap string value).

(** Field name -> list of reasons, the shape of [serializer.errors]. *)
Abbreviation error_dict := (gmap string (list string)).

(** ** Exceptions, responses and the request monad *)

(** [Http404] carries its message; [ValidationError] carries the per-field
    mapping a serializer or a filter set reports, [ValidationErrorList] is
    the same exception with a plain list of reasons as its detail, as a
    field raises it outside a serializer. *)
Inductive exn :=
  | Http404 (msg : string)
  | NotAuthenticated
  | PermissionDenied
  | ValidationError (errors : error_dict)
  | ValidationErrorList (reasons : list string)
  | AssertionError (msg : string)
  | ModelError (msg : string).

Inductive result (A : Type) :=
  | Ok (a : A)
  | Raise (e : exn).
Arguments Ok {A} a.
Arguments Raise {A} e.

(** Response bodies; [BUncaught e] is the error page of an exception that
    left the view unhandled. *)
Inductive body :=
  | BEmpty
  | BDict (d : dict)
  | BList (l : list dict)
  | BErrors (e : error_dict)
  | BReasons (l : list string)
  | BDetail (msg : string)
  | BUncaught (e : exn).

Record Response := mkResponse { status_code : Z; data : body }.

Definition HTTP_200_OK : Z := 200.
Definition HTTP_201_CREATED : Z := 201.
Definition HTTP_204_NO_CONTENT : Z := 204.
Definition HTTP_400_BAD_REQUEST : Z := 400.
Definition HTTP_401_UNAUTHORIZED : Z := 401.
Definition HTTP_403_FORBIDDEN : Z := 403.
Definition HTTP_404_NOT_FOUND : Z := 404.
Definition HTTP_500_INTERNAL_SERVER_ERROR : Z := 500.

(** ** Stored rows *)

Record User := mkUser {
  user_id : Z;
  user_username : string;
  user_email : string;
  user_password : string   (* the stored hash *)
}.

(** Modelled from the spec: the [Task] model ([tasks/models.py] is not among
    the sources).  Section 3 of the specification gives the columns: a
    system-assigned identifier, the owner (the foreign key the views call
    [user]), a title, an optional description, an optional due date and a
    completion flag that defaults to false. *)
Record Task := mkTask {
  task_id : Z;
  task_user : Z;
  task_title : string;
  task_description : option string;
  task_due_date : option date;
  task_completed : bool
}.

Global Instance Task_eq_dec : EqDecision Task.
Proof. solve_decision. Defined.

(** The database: two tables, rows in storage order, and for each table the
    highest identifier the storage layer has issued so far (identifiers are
    never issued twice, also not after a row is deleted). *)
Record DB := mkDB {
  users : list User;
  tasks : list Task;
  user_seq : Z;
  task_seq : Z
}.

(** INSERT of a row: it is appended, and the sequence of the table moves up
    to its identifier. *)
Definition insert_task (t : Task) (db : DB) : DB :=
  mkDB (users db) (tasks db ++ [t]) (user_seq db)
    (Z.max (task_seq db) (task_id t)).

Definition insert_user (u : User) (db : DB) : DB :=
  mkDB (users db ++ [u]) (tasks db) (Z.max (user_seq db) (user_id u))
    (task_seq db).

(** UPDATE and DELETE change the rows of the task table and nothing else. *)
Definition set_tasks (rows : list Task) (db : DB) : DB :=
  mkDB (users db) rows (user_seq db) (task_seq db).

(** A view method runs against the database and either returns or raises.
    Django runs in autocommit mode, so what was written before an exception
    stays written: the state is threaded through both outcomes. *)
Definition M (A : Type) : Type := DB → result A * DB.

Definition ret {A} (a : A) : M A := λ db, (Ok a, db).
Definition raise {A} (e : exn) : M A := λ db, (Raise e, db).
Definition bind {A B} (m : M A) (k : A → M B) : M B :=
  λ db, match m db with
        | (Ok a, db') => k a db'
        | (Raise e, db') => (Raise e, db')
        end.
Definition lift {A} (r : result A) : M A := λ db, (r, db).
Definition get_db : M DB := λ db, (Ok db, db).
Definition put_db (db' : DB) : M unit := λ _, (Ok tt, db').

Notation "'let!' x ':=' m 'in' k" := (bind m (λ x, k))
  (at level 10, x name, m at level 100, k at level 200).
Notation "m ';;!' k" := (bind m (λ _, k))
  (at level 100, k at level 200, right associativity).

Definition result_bind {A B} (r : result A) (k : A → result B) : result B :=
  match r with
  | Ok a => k a
  | Raise e => Raise e
  end.

Notation "'let?' x ':=' r 'in' k" := (result_bind r (λ x, k))
  (at level 10, x name, r at level 100, k at level 200).

(** ** Requests *)

(** [request.user] is [None] for [AnonymousUser], otherwise the primary key
    of the authenticated user; [query_params] are the raw strings of the URL;
    [request_data] is the parsed body. *)
Record Request := mkRequest {
  request_user : option Z;
  query_params : gmap string string;
  request_data : dict
}.

(** The state of a view instance that the methods read: [self.request] and
    [self.kwargs]. *)
Record View := mkView {
  view_request : Request;
  view_kwargs : gmap string Z
}.

(** ** Strings: what the filters need *)

Definition lower_ascii (c : ascii) : ascii :=
  let n := N_of_ascii c in
  if ((65 <=? n) && (n <=? 90))%N then ascii_of_N (n + 32) else c.

Fixpoint lower (s : string) : string :=
  match s with
  | EmptyString => EmptyString
  | String c s' => String (lower_ascii c) (lower s')
  end.

Fixpoint startswith (p s : string) : bool :=
  match p, s with
  | EmptyString, _ => true
  | String a p', String b s' => if decide (a = b) then startswith p' s' else false
  | String _ _, EmptyString => false
  end.

Fixpoint contains (needle s : string) : bool :=
  startswith needle s ||
  match s with
  | EmptyString => false
  | String _ s' => contains needle s'
  end.

(** The ORM lookup [field__icontains=term]. *)
Definition icontains (term s : string) : bool := contains (lower term) (lower s).

(** ** The object-relational layer over [Task] *)

Definition Task_fields : list string :=
  ["id"; "user"; "title"; "description"; "due_date"; "completed"].

(** [getattr(task, name)] for a column name. *)
Definition Task_getattr (name : string) (t : Task) : option value :=
  if decide (name = "id") then Some (VInt (task_id t))
  else if decide (name = "user") then Some (VUser (task_user t))
  else if decide (name = "title") then Some (VStr (task_title t))
  else if decide (name = "description") then
    Some (from_option VStr VNone (task_description t))
  else if decide (name = "due_date") then
    Some (from_option VDate VNone (task_due_date t))
  else if decide (name = "completed") then Some (VBool (task_completed t))
  else None.

Definition as_user (v : value) : result Z :=
  match v with
  | VUser u => Ok u
  | _ => Raise (ModelError "ValueError")
  end.

Definition as_str (v : value) : result string :=
  match v with
  | VStr s => Ok s
  | _ => Raise (ModelError "ValueError")
  end.

Definition as_opt_str (v : value) : result (option string) :=
  match v with
  | VNone => Ok None
  | VStr s => Ok (Some s)
  | _ => Raise (ModelError "ValueError")
  end.

Definition as_opt_date (v : value) : result (option date) :=
  match v with
  | VNone => Ok None
  | VDate d => Ok (Some d)
  | _ => Raise (ModelError "ValueError")
  end.

Definition as_bool (v : value) : result bool :=
  match v with
  | VBool b => Ok b
  | _ => Raise (ModelError "ValueError")
  end.

(** Reads keyword [name], converting it with [conv]; [dflt] when absent. *)
Definition kwarg {A} (kw : dict) (name : string)
    (conv : value → result A) (dflt : result A) : result A :=
  match kw !! name with
  | Some v => conv v
  | None => dflt
  end.

(** [Task] built from keyword arguments [kw], about to be inserted under primary key [pk]: an unknown
    keyword is a [TypeError], a missing owner violates the NOT NULL foreign
    key, the other columns take their defaults. *)
Definition Task_init (pk : Z) (kw : dict) : result Task :=
  if decide (dom kw ⊆ list_to_set (C := gset string) Task_fields) then
    let? u := kwarg kw "user" as_user (Raise (ModelError "IntegrityError")) in
    let? ti := kwarg kw "title" as_str (Ok "") in
    let? de := kwarg kw "description" as_opt_str (Ok None) in
    let? du := kwarg kw "due_date" as_opt_date (Ok None) in
    let? co := kwarg kw "completed" as_bool (Ok false) in
    Ok (mkTask pk u ti de du co)
  else Raise (ModelError "TypeError").

(** The value the storage layer assigns to an [AutoField]: one more than
    every identifier issued before and every identifier stored. *)
Definition next_id (seq : Z) (ids : list Z) : Z :=
  1 + Z.max seq (foldr Z.max 0 ids).

(** [Task.objects.create] called with keyword arguments [kw] *)
Definition Task_objects_create (kw : dict) : M Task := λ db,
  let ids := task_id <$> tasks db in
  let pk :=
    match kw !! "id" with
    | None => Ok (next_id (task_seq db) ids)
    | Some (VInt i) =>
        if decide (i ∈ ids) then Raise (ModelError "IntegrityError") else Ok i
    | Some _ => Raise (ModelError "ValueError")
    end in
  match (let? i := pk in Task_init i kw) with
  | Ok t => (Ok t, insert_task t db)
  | Raise e => (Raise e, db)
  end.

(** [setattr(instance, attr, value)] for every item of [kw], as
    [ModelSerializer.update] does; attributes that are not columns do not
    reach the row. *)
Definition Task_setattrs (t : Task) (kw : dict) : result Task :=
  let? pk := kwarg kw "id" (λ v, match v with
                                 | VInt i => Ok i
                                 | _ => Raise (ModelError "ValueError")
                                 end) (Ok (task_id t)) in
  let? u := kwarg kw "user" as_user (Ok (task_user t)) in
  let? ti := kwarg kw "title" as_str (Ok (task_title t)) in
  let? de := kwarg kw "description" as_opt_str (Ok (task_description t)) in
  let? du := kwarg kw "due_date" as_opt_date (Ok (task_due_date t)) in
  let? co := kwarg kw "completed" as_bool (Ok (task_completed t)) in
  Ok (mkTask pk u ti de du co).

(** [instance.save()]: UPDATE the row with this primary key, INSERT when
    there is none. *)
Definition Task_save (t : Task) : M unit := λ db,
  let rows := tasks db in
  if decide (task_id t ∈ task_id <$> rows) then
    (Ok tt, set_tasks
              ((λ r, if decide (task_id r = task_id t) then t else r) <$> rows)
              db)
  else (Ok tt, insert_task t db).

(** [instance.delete()] *)
Definition Task_delete (t : Task) : M unit := λ db,
  (Ok tt, set_tasks (filter (λ r, task_id r ≠ task_id t) (tasks db)) db).

(** What [get_object_or_404] raises when no row matches. *)
Definition task_not_found : exn := Http404 "No Task matches the given query.".

(** [queryset.get(pk=pk)] behind [get_object_or_404]. *)
Definition get_object_or_404 (queryset : list Task) (pk : Z) : result Task :=
  match filter (λ t, task_id t = pk) queryset with
  | [] => Raise task_not_found
  | [t] => Ok t
  | _ => Raise (ModelError "MultipleObjectsReturned")
  end.

(** The primary key constraint of the [Task] table. *)
Definition pk_unique (db : DB) : Prop := NoDup (task_id <$> tasks db).

(** ** Collaborators outside the sources

    The views call into code that is not part of the two source files: the
    project settings, form parsing and search tokenisation of the framework,
    the password hasher, and the validation and representation halves of the
    two serializer classes ([tasks/serializers.py] and
    [users/serializers.py]).  They are taken as parameters. *)
Class Collaborators := {
  (** the [WWW-Authenticate] header of the first authentication class of the
      settings, if it has one *)
  authenticate_header : option string;
  (** [django.forms.DateField.to_python] on a non-empty string *)
  parse_date : string → option date;
  (** [SearchFilter.get_search_terms] on the value of the [search]
      parameter: the reasons for which the value is refused (a NUL character,
      for one), or the search terms in it *)
  get_search_terms : string → list string + list string;
  (** [django.contrib.auth.hashers.make_password] *)
  make_password : option string → string;
  TaskSerializer_run_validation :
    DB → option Task → bool → dict → error_dict + dict;
  TaskSerializer_to_representation : Task → dict;
  UserSerializer_run_validation :
    DB → option User → bool → dict → error_dict + dict;
  UserSerializer_update : User → dict → M User;
  UserSerializer_to_representation : User → dict
}.

(** ** The framework: classes, permissions, serializers *)

Inductive FilterBackend := DjangoFilterBackend | SearchFilter.

Section framework.
(** The model class a view works on. *)
Context {Obj : Type}.

(** [rest_framework.permissions.BasePermission] and its subclasses: the
    two hooks of a permission class. *)
Record Permission := mkPermission {
  has_permission : Request → View → bool;
  has_object_permission : Request → View → Obj → bool
}.

(** A serializer class: validation of the incoming dictionary (against the
    stored state, for an existing instance or none, partially or not), the
    [create] and [update] hooks behind [save], and the outgoing
    representation. *)
Record SerializerClass := mkSerializerClass {
  sc_run_validation : DB → option Obj → bool → dict → error_dict + dict;
  sc_create : dict → M Obj;
  sc_update : Obj → dict → M Obj;
  sc_to_representation : Obj → dict
}.

(** A serializer instance once [is_valid] has passed. *)
Record Serializer := mkSerializer {
  ser_class : SerializerClass;
  ser_instance : option Obj;
  ser_validated_data : dict
}.

(** What a class body can bind a name to. *)
Inductive attr :=
  | ANone
  | ASerializerClass (s : SerializerClass)
  | APermissionClasses (l : list Permission)
  | AFilterBackends (l : list FilterBackend)
  | AStrings (l : list string)
  | AName (s : string).

(** A class is the list of the namespaces on its method resolution order,
    its own first; [getattr] returns the first binding of the name. *)
Fixpoint getattr (mro : list (gmap string attr)) (name : string) : option attr :=
  match mro with
  | [] => None
  | ns :: bases =>
      match ns !! name with
      | Some a => Some a
      | None => getattr bases name
      end
  end.

(** The class attributes of [GenericAPIView] (with [APIView]'s) that the
    views below rely on, at the framework's defaults. *)
Definition AllowAny : Permission :=
  {| has_permission _ _ := true; has_object_permission _ _ _ := true |}.

Definition GenericAPIView_namespace : gmap string attr :=
  {[ "__name__" := AName "GenericAPIView";
     "queryset" := ANone;
     "serializer_class" := ANone;
     "pagination_class" := ANone;
     "permission_classes" := APermissionClasses [AllowAny];
     "filter_backends" := AFilterBackends [] ]}.

(** [self.__class__.__name__] *)
Definition class_name (mro : list (gmap string attr)) : string :=
  match getattr mro "__name__" with
  | Some (AName name) => name
  | _ => ""
  end.

(** What the assertion of [get_serializer_class] raises. *)
Definition serializer_class_missing (mro : list (gmap string attr)) : exn :=
  AssertionError
    ("'" ++ class_name mro ++
     "' should either include a `serializer_class` attribute, or override the `get_serializer_class()` method.").

(** [GenericAPIView.get_serializer_class]: asserts that the attribute
    [serializer_class] is not [None], and returns it. *)
Definition get_serializer_class (mro : list (gmap string attr))
    : result SerializerClass :=
  match getattr mro "serializer_class" with
  | Some (ASerializerClass s) => Ok s
  | _ => Raise (serializer_class_missing mro)
  end.

(** [get_serializer(instance, data=..., partial=...)] followed by
    [is_valid(raise_exception=True)]. *)
Definition get_valid_serializer (mro : list (gmap string attr))
    (instance : option Obj) (partial : bool) (initial_data : dict)
    : M Serializer :=
  let! cls := lift (get_serializer_class mro) in
  let! db := get_db in
  match sc_run_validation cls db instance partial initial_data with
  | inl errors => raise (ValidationError errors)
  | inr validated_data => ret (mkSerializer cls instance validated_data)
  end.

(** [BaseSerializer.save]: the keyword arguments are merged over the
    validated data, then [update] or [create] runs. *)
Definition save (s : Serializer) (kwargs : dict) : M Obj :=
  let validated_data := kwargs ∪ ser_validated_data s in
  match ser_instance s with
  | Some instance => sc_update (ser_class s) instance validated_data
  | None => sc_create (ser_class s) validated_data
  end.

(** [APIView.permission_denied] *)
Definition permission_denied {A} (request : Request) : result A :=
  match request_user request with
  | None => Raise NotAuthenticated
  | Some _ => Raise PermissionDenied
  end.

Definition get_permissions (mro : list (gmap string attr)) : list Permission :=
  match getattr mro "permission_classes" with
  | Some (APermissionClasses l) => l
  | _ => []
  end.

(** [APIView.check_permissions] *)
Fixpoint check_permissions (perms : list Permission) (request : Request)
    (view : View) : result unit :=
  match perms with
  | [] => Ok tt
  | p :: perms' =>
      if has_permission p request view
      then check_permissions perms' request view
      else permission_denied request
  end.

(** [APIView.check_object_permissions] *)
Fixpoint check_object_permissions (perms : list Permission)
    (request : Request) (view : View) (obj : Obj) : result unit :=
  match perms with
  | [] => Ok tt
  | p :: perms' =>
      if has_object_permission p request view obj
      then check_object_permissions perms' request view obj
      else permission_denied request
  end.

(** [APIView.handle_exception] with the default exception handler: a
    missing credential is a 401 when the authentication scheme has a
    challenge header and a 403 otherwise; an exception the handler does not
    know leaves the view and becomes a server error. *)
Definition handle_exception `{Collaborators} (e : exn) : Response :=
  match e with
  | Http404 msg => mkResponse HTTP_404_NOT_FOUND (BDetail msg)
  | NotAuthenticated =>
      mkResponse (match authenticate_header with
                  | Some _ => HTTP_401_UNAUTHORIZED
                  | None => HTTP_403_FORBIDDEN
                  end)
        (BDetail "Authentication credentials were not provided.")
  | PermissionDenied => mkResponse HTTP_403_FORBIDDEN
                          (BDetail "You do not have permission to perform this action.")
  | ValidationError errors => mkResponse HTTP_400_BAD_REQUEST (BErrors errors)
  | ValidationErrorList reasons =>
      mkResponse HTTP_400_BAD_REQUEST (BReasons reasons)
  | AssertionError _ | ModelError _ =>
      mkResponse HTTP_500_INTERNAL_SERVER_ERROR (BUncaught e)
  end.

(** [APIView.dispatch]: the permission checks of [initial], then the
    handler, with exceptions turned into responses. *)
Definition dispatch `{Collaborators} (mro : list (gmap string attr))
    (handler : View → M Response) (view : View) (db : DB) : Response * DB :=
  let run :=
    (lift (check_permissions (get_permissions mro) (view_request view) view) ;;!
     handler view) in
  match run db with
  | (Ok response, db') => (response, db')
  | (Raise e, db') => (handle_exception e, db')
  end.
End framework.

Arguments Permission : clear implicits.
Arguments SerializerClass : clear implicits.
Arguments Serializer : clear implicits.
Arguments attr : clear implicits.

(** [rest_framework.permissions.BasePermission]: both hooks allow. *)
Module BasePermission.
Definition has_permission (request : Request) (view : View) : bool := true.
Definition has_object_permission {Obj} (request : Request) (view : View)
    (obj : Obj) : bool := true.
End BasePermission.

(** [rest_framework.permissions.IsAuthenticated] *)
Definition IsAuthenticated {Obj} : Permission Obj :=
  {| has_permission request _ := bool_decide (is_Some (request_user request));
     has_object_permission := BasePermission.has_object_permission |}.

(** ** Filter backends *)

(** [django_filters.widgets.BooleanWidget.value_from_datadict] *)
Definition BooleanWidget (raw : string) : option bool :=
  let v := lower raw in
  if decide (v = "1") then Some true
  else if decide (v = "0") then Some false
  else if decide (v = "true") then Some true
  else if decide (v = "false") then Some false
  else None.

(** Modelled from the spec: the column types of [Task] ([tasks/models.py] is
    not among the sources), as far as a filter can be declared on them. *)
Inductive field_type := CharField | DateField | BooleanField | OtherField.

Definition Task_field_type (name : string) : option field_type :=
  if decide (name = "title") then Some CharField
  else if decide (name = "description") then Some CharField
  else if decide (name = "due_date") then Some DateField
  else if decide (name = "completed") then Some BooleanField
  else if decide (name ∈ Task_fields) then Some OtherField
  else None.

(** The form field of an automatically generated filter cleans the raw
    parameter: a reason when it is malformed, [None] when it is empty (the
    filter is then skipped), otherwise the value to match exactly. *)
Definition clean_param `{Collaborators} (ft : field_type) (raw : string)
    : result (string + option value) :=
  match ft with
  | BooleanField => Ok (inr (VBool <$> BooleanWidget raw))
  | DateField =>
      if decide (raw = "") then Ok (inr None)
      else match parse_date raw with
           | Some d => Ok (inr (Some (VDate d)))
           | None => Ok (inl "Enter a valid date.")
           end
  | CharField =>
      if decide (raw = "") then Ok (inr None) else Ok (inr (Some (VStr raw)))
  | OtherField => Raise (ModelError "NotImplementedError")
  end.

(** The generated [FilterSet]: per declared field, the errors and the exact
    matches requested by the query parameters. *)
Fixpoint filterset_clean `{Collaborators} (fields : list string)
    (params : gmap string string)
    : result (error_dict * list (string * value)) :=
  match fields with
  | [] => Ok (∅, [])
  | name :: fields' =>
      let? r := filterset_clean fields' params in
      match Task_field_type name with
      | None => Raise (ModelError "TypeError")
      | Some ft =>
          match params !! name with
          | None => Ok r
          | Some raw =>
              let? c := clean_param ft raw in
              match c with
              | inl reason => Ok (<[name := [reason]]> (r.1), r.2)
              | inr None => Ok r
              | inr (Some v) => Ok (r.1, (name, v) :: r.2)
              end
          end
      end
  end.

(** The lookup [name=v] (exact match). *)
Definition exact (t : Task) (nv : string * value) : bool :=
  bool_decide (Task_getattr nv.1 t = Some nv.2).

(** The lookup [name__icontains=term]; NULL matches nothing. *)
Definition field_icontains (t : Task) (term name : string) : bool :=
  match Task_getattr name t with
  | Some (VStr s) => icontains term s
  | _ => false
  end.

Definition filter_backend_queryset `{Collaborators}
    (mro : list (gmap string (attr Task))) (backend : FilterBackend)
    (request : Request) (queryset : list Task) : result (list Task) :=
  match backend with
  | DjangoFilterBackend =>
      match getattr mro "filterset_fields" with
      | Some (AStrings fields) =>
          let? r := filterset_clean fields (query_params request) in
          if decide (r.1 = ∅)
          then Ok (filter (λ t, forallb (exact t) (r.2) = true) queryset)
          else Raise (ValidationError (r.1))
      | _ => Ok queryset
      end
  | SearchFilter =>
      match get_search_terms (default "" (query_params request !! "search")) with
      | inl reasons => Raise (ValidationErrorList reasons)
      | inr terms =>
          match getattr mro "search_fields", terms with
          | Some (AStrings (f :: fields)), _ :: _ =>
              Ok (filter (λ t, forallb (λ term,
                                  existsb (field_icontains t term) (f :: fields))
                                terms = true) queryset)
          | _, _ => Ok queryset
          end
      end
  end.

Definition get_filter_backends (mro : list (gmap string (attr Task)))
    : list FilterBackend :=
  match getattr mro "filter_backends" with
  | Some (AFilterBackends l) => l
  | _ => []
  end.

Fixpoint apply_backends `{Collaborators} (mro : list (gmap string (attr Task)))
    (backends : list FilterBackend) (request : Request) (queryset : list Task)
    : result (list Task) :=
  match backends with
  | [] => Ok queryset
  | b :: backends' =>
      let? queryset' := filter_backend_queryset mro b request queryset in
      apply_backends mro backends' request queryset'
  end.

(** [GenericAPIView.filter_queryset] *)
Definition filter_queryset `{Collaborators} (mro : list (gmap string (attr Task)))
    (request : Request) (queryset : list Task) : result (list Task) :=
  apply_backends mro (get_filter_backends mro) request queryset.

(** ** Model serializers *)

(** [ModelSerializer.create] and [ModelSerializer.update] over [Task]. *)
Definition ModelSerializer_create (validated_data : dict) : M Task :=
  Task_objects_create validated_data.

Definition ModelSerializer_update (instance : Task) (validated_data : dict)
    : M Task :=
  let! instance' := lift (Task_setattrs instance validated_data) in
  Task_save instance' ;;!
  ret instance'.

(** Modelled from the spec: [TaskSerializer] ([tasks/serializers.py] is not
    among the sources), the serialization layer the task controller delegates
    to: a model serializer over [Task] whose [create] and [update] are the
    framework's; what it validates and how it represents a task are
    parameters. *)
Definition TaskSerializer `{Collaborators} : SerializerClass Task :=
  {| sc_run_validation := TaskSerializer_run_validation;
     sc_create := ModelSerializer_create;
     sc_update := ModelSerializer_update;
     sc_to_representation := TaskSerializer_to_representation |}.

(** Modelled from the spec: saving the registration serializer
    ([users/serializers.py] is not among the sources) persists a new [User],
    with a system-assigned identifier and the password in hashed form only
    (section 4.1 of the specification). *)
Definition User_objects_create_user `{Collaborators} (validated_data : dict)
    : M User := λ db,
  let fields :=
    let? username := kwarg validated_data "username" as_str
                       (Raise (ModelError "TypeError")) in
    let? email := kwarg validated_data "email" as_str (Ok "") in
    let? password := kwarg validated_data "password"
                       (λ v, let? s := as_str v in Ok (Some s)) (Ok None) in
    Ok (username, email, password) in
  match fields with
  | Ok (username, email, password) =>
      let user := mkUser (next_id (user_seq db) (user_id <$> users db))
                    username email (make_password password) in
      (Ok user, insert_user user db)
  | Raise e => (Raise e, db)
  end.

Definition UserSerializer `{Collaborators} : SerializerClass User :=
  {| sc_run_validation := UserSerializer_run_validation;
     sc_create := User_objects_create_user;
     sc_update := UserSerializer_update;
     sc_to_representation := UserSerializer_to_representation |}.

(** ** Generic views: [ModelViewSet] *)

(** A view set class: its namespaces and the methods a subclass overrides. *)
Record ViewSetClass := mkViewSetClass {
  vs_mro : list (gmap string (attr Task));
  vs_get_queryset : View → M (list Task);
  vs_perform_create : View → Serializer Task → M Task;
  vs_perform_update : View → Serializer Task → M Task;
  vs_perform_destroy : View → Task → M unit
}.

Module GenericAPIView.
(** Without a [queryset] attribute the default [get_queryset] fails its
    assertion. *)
Definition get_queryset (mro : list (gmap string (attr Task))) (view : View)
    : M (list Task) :=
  raise (AssertionError
    ("'" ++ class_name mro ++
     "' should either include a `queryset` attribute, or override the `get_queryset()` method.")).

(** What the assertion of [get_object] raises when the URL has no [pk]. *)
Definition lookup_kwarg_missing (mro : list (gmap string (attr Task))) : exn :=
  let quote := String (ascii_of_nat 34) EmptyString in
  AssertionError
    ("Expected view " ++ class_name mro ++
     " to be called with a URL keyword argument named " ++ quote ++ "pk" ++
     quote ++
     ". Fix your URL conf, or set the `.lookup_field` attribute on the view correctly.").

(** [self.filter_queryset(self.get_queryset())], the first statement of
    both [get_object] and [list]. *)
Definition filtered_queryset `{Collaborators} (cls : ViewSetClass)
    (view : View) : M (list Task) :=
  let! queryset := vs_get_queryset cls view in
  lift (filter_queryset (vs_mro cls) (view_request view) queryset).

Definition get_object `{Collaborators} (cls : ViewSetClass) (view : View)
    : M Task :=
  let request := view_request view in
  let! queryset := filtered_queryset cls view in
  match view_kwargs view !! "pk" with
  | None => raise (lookup_kwarg_missing (vs_mro cls))
  | Some pk =>
      let! obj := lift (get_object_or_404 queryset pk) in
      lift (check_object_permissions (get_permissions (vs_mro cls))
              request view obj) ;;!
      ret obj
  end.
End GenericAPIView.

Module mixins.
Definition perform_create (view : View) (serializer : Serializer Task)
    : M Task := save serializer ∅.

Definition perform_update (view : View) (serializer : Serializer Task)
    : M Task := save serializer ∅.

Definition perform_destroy (view : View) (instance : Task) : M unit :=
  Task_delete instance.

(** [CreateModelMixin.create] *)
Definition create (cls : ViewSetClass) (view : View) : M Response :=
  let! serializer :=
    get_valid_serializer (vs_mro cls) None false
      (request_data (view_request view)) in
  let! instance := vs_perform_create cls view serializer in
  ret (mkResponse HTTP_201_CREATED
         (BDict (sc_to_representation (ser_class serializer) instance))).

(** [ListModelMixin.list]; [pagination_class] is at its default, so the
    page is [None] and the whole filtered queryset is serialized. *)
Definition list `{Collaborators} (cls : ViewSetClass) (view : View)
    : M Response :=
  let! queryset := GenericAPIView.filtered_queryset cls view in
  let! serializer_class := lift (get_serializer_class (vs_mro cls)) in
  ret (mkResponse HTTP_200_OK
         (BList (sc_to_representation serializer_class <$> queryset))).

(** [RetrieveModelMixin.retrieve] *)
Definition retrieve `{Collaborators} (cls : ViewSetClass) (view : View)
    : M Response :=
  let! instance := GenericAPIView.get_object cls view in
  let! serializer_class := lift (get_serializer_class (vs_mro cls)) in
  ret (mkResponse HTTP_200_OK
         (BDict (sc_to_representation serializer_class instance))).

(** [UpdateModelMixin.update]; [partial_update] passes [partial = true]. *)
Definition update `{Collaborators} (partial : bool) (cls : ViewSetClass)
    (view : View) : M Response :=
  let! instance := GenericAPIView.get_object cls view in
  let! serializer :=
    get_valid_serializer (vs_mro cls) (Some instance) partial
      (request_data (view_request view)) in
  let! instance' := vs_perform_update cls view serializer in
  ret (mkResponse HTTP_200_OK
         (BDict (sc_to_representation (ser_class serializer) instance'))).

(** [DestroyModelMixin.destroy] *)
Definition destroy `{Collaborators} (cls : ViewSetClass) (view : View)
    : M Response :=
  let! instance := GenericAPIView.get_object cls view in
  vs_perform_destroy cls view instance ;;!
  ret (mkResponse HTTP_204_NO_CONTENT BEmpty).
End mixins.

(** A routed action of a view set, as the client sees it. *)
Definition as_view `{Collaborators} (cls : ViewSetClass)
    (action : ViewSetClass → View → M Response) (view : View) (db : DB)
    : Response * DB :=
  dispatch (vs_mro cls) (action cls) view db.

(** ** [src/tasks/views.py] *)

Module IsOwnerPermission.
(** [return super().has_object_permission(request, view, obj)] *)
Definition has_object_permission (request : Request) (view : View)
    (obj : Task) : bool :=
  BasePermission.has_object_permission request view obj.

Definition cls : Permission Task :=
  @mkPermission Task BasePermission.has_permission has_object_permission.
End IsOwnerPermission.

Module TaskViewSet.
(** The class statement: the name of the class and the attributes of its
    body, name by name as the source spells them. *)
Definition namespace `{Collaborators} : gmap string (attr Task) :=
  {[ "__name__" := AName "TaskViewSet";
     "serialzer_class" := ASerializerClass TaskSerializer;
     "permission_classes" :=
       APermissionClasses [IsAuthenticated; IsOwnerPermission.cls];
     "filter_backends" := AFilterBackends [DjangoFilterBackend; SearchFilter];
     "filterset_fields" := AStrings ["completed"; "due_date"];
     "search_fields" := AStrings ["title"; "description"] ]}.

(** [Task.objects.filter(user=self.request.user)] *)
Definition get_queryset (view : View) : M (list Task) :=
  match request_user (view_request view) with
  | Some u =>
      let! db := get_db in
      ret (filter (λ t, task_user t = u) (tasks db))
  | None => raise (ModelError "TypeError")
  end.

(** [serializer.save(user=self.request.user)] *)
Definition perform_create (view : View) (serializer : Serializer Task)
    : M Task :=
  save serializer
    {[ "user" := from_option VUser VAnonymous
                   (request_user (view_request view)) ]}.

(** [class TaskViewSet(viewsets.ModelViewSet)] *)
Definition cls `{Collaborators} : ViewSetClass :=
  {| vs_mro := [namespace; GenericAPIView_namespace];
     vs_get_queryset := get_queryset;
     vs_perform_create := perform_create;
     vs_perform_update := mixins.perform_update;
     vs_perform_destroy := mixins.perform_destroy |}.
End TaskViewSet.

(** ** [src/users/views.py] *)

Module RegisterView.
Definition namespace `{Collaborators} : gmap string (attr User) :=
  {[ "__name__" := AName "RegisterView";
     "serializer_class" := ASerializerClass UserSerializer;
     "permission_classes" := APermissionClasses [AllowAny] ]}.

Definition mro `{Collaborators} : list (gmap string (attr User)) :=
  [namespace; GenericAPIView_namespace].

Definition post `{Collaborators} (view : View) : M Response :=
  let! serializer :=
    get_valid_serializer mro None false (request_data (view_request view)) in
  let! user := save serializer ∅ in
  ret (mkResponse HTTP_201_CREATED
         (BDict {[ "id" := VInt (user_id user);
                   "username" := VStr (user_username user);
                   "email" := VStr (user_email user) ]})).

(** [POST /register] as the client sees it. *)
Definition as_view `{Collaborators} (view : View) (db : DB) : Response * DB :=
  dispatch mro post view db.
End RegisterView.

(** ** A concrete instantiation, to run the model *)

Module Sample.
Definition digit (c : ascii) : option Z :=
  let n := Z.of_N (N_of_ascii c) in
  if decide (48 ≤ n ≤ 57)%Z then Some (n - 48) else None.

Fixpoint digits (acc : Z) (s : string) : option Z :=
  match s with
  | EmptyString => Some acc
  | String c s' =>
      match digit c with
      | Some d => digits (10 * acc + d) s'
      | None => None
      end
  end.

(** ISO dates, [YYYY-MM-DD]. *)
Definition iso_date (s : string) : option date :=
  if decide (String.length s = 10%nat ∧ String.get 4 s = Some "-"%char
             ∧ String.get 7 s = Some "-"%char) then
    match digits 0 (substring 0 4 s), digits 0 (substring 5 2 s),
          digits 0 (substring 8 2 s) with
    | Some y, Some m, Some d =>
        if decide ((1 ≤ m ≤ 12)%Z ∧ (1 ≤ d ≤ 31)%Z) then Some (mkdate y m d) else None
    | _, _, _ => None
    end
  else None.

(** Commas become blanks, then the string is split on blanks; a value with
    a NUL character is refused. *)
Fixpoint split_terms (cur : string) (s : string) : list string :=
  let flush := if decide (cur = "") then [] else [cur] in
  match s with
  | EmptyString => flush
  | String c s' =>
      if decide (c = " "%char ∨ c = ","%char)
      then flush ++ split_terms "" s'
      else split_terms (cur ++ String c "") s'
  end.

Fixpoint has_nul (s : string) : bool :=
  match s with
  | EmptyString => false
  | String c s' => bool_decide (c = zero) || has_nul s'
  end.

Definition search_terms_of (value : string) : list string + list string :=
  if has_nul value then inl ["Null characters are not allowed."]
  else inr (split_terms "" value).

Definition required (name : string) (data : dict) : error_dict :=
  match data !! name with
  | Some (VStr _) => ∅
  | _ => {[ name := ["This field is required."] ]}
  end.

(** Tasks need a title; only the declared writable columns pass. *)
Definition task_validation (db : DB) (instance : option Task)
    (partial : bool) (data : dict) : error_dict + dict :=
  let errors := if partial then ∅ else required "title" data in
  if decide (errors = ∅)
  then inr (filter (λ kv, kv.1 ∈ ["title"; "description"; "due_date"; "completed"]) data)
  else inl errors.

Definition task_representation (t : Task) : dict :=
  list_to_map (omap (λ name, pair name <$> Task_getattr name t) Task_fields).

(** Users need a user name that is not taken, and a password. *)
Definition user_validation (db : DB) (instance : option User)
    (partial : bool) (data : dict) : error_dict + dict :=
  let taken :=
    match data !! "username" with
    | Some (VStr name) =>
        if decide (name ∈ user_username <$> users db)
        then {[ "username" := ["A user with that username already exists."] ]}
        else ∅
    | _ => ∅
    end in
  let errors : error_dict :=
    taken ∪ required "username" data ∪ required "password" data in
  if decide (errors = ∅)
  then inr (filter (λ kv, kv.1 ∈ ["username"; "email"; "password"]) data)
  else inl errors.

Definition collaborators : Collaborators :=
  {| authenticate_header := Some "Bearer";
     parse_date := iso_date;
     get_search_terms := search_terms_of;
     make_password := λ p, "pbkdf2$" ++ default "!" p;
     TaskSerializer_run_validation := task_validation;
     TaskSerializer_to_representation := task_representation;
     UserSerializer_run_validation := user_validation;
     UserSerializer_update := λ instance _, ret instance;
     UserSerializer_to_representation := λ user,
       {[ "username" := VStr (user_username user);
          "email" := VStr (user_email user) ]} |}.

Definition alice : Z := 1.
Definition bob : Z := 2.

Definition db0 : DB :=
  {| users := [mkUser alice "alice" "alice@example.org" "pbkdf2$a";
               mkUser bob "bob" "bob@example.org" "pbkdf2$b"];
     tasks := [mkTask 1 alice "Write report" (Some "quarterly numbers")
                 (Some (mkdate 2024 5 1)) false;
               mkTask 2 bob "Buy milk" None None true;
               mkTask 3 alice "Call plumber" (Some "kitchen sink") None true;
               mkTask 4 alice "Report expenses" None
                 (Some (mkdate 2024 5 1)) true];
     user_seq := 2;
     task_seq := 4 |}.

Definition request (user : option Z) (params : list (string * string))
    (data : list (string * value)) : Request :=
  mkRequest user (list_to_map params) (list_to_map data).

Definition collection (r : Request) : View := mkView r ∅.
Definition detail (r : Request) (pk : Z) : View := mkView r {[ "pk" := pk ]}.
End Sample.

(** * Vocabulary of the properties *)

(** ** What the query parameters ask for *)

(** The [completed] parameter as the boolean widget reads it. *)
Definition completed_param (request : Request) : option bool :=
  query_params request !! "completed" ≫= BooleanWidget.

(** The [due_date] parameter: absent or empty, malformed, or a date. *)
Inductive due_param := DueAny | DueInvalid | DueOn (d : date).

Definition due_date_param `{Collaborators} (request : Request) : due_param :=
  match query_params request !! "due_date" with
  | None => DueAny
  | Some raw =>
      if decide (raw = "") then DueAny
      else match parse_date raw with
           | Some d => DueOn d
           | None => DueInvalid
           end
  end.

(** The [search] parameter as the search backend reads it: the reasons it
    is refused for, or its terms. *)
Definition search_param `{Collaborators} (request : Request)
    : list string + list string :=
  get_search_terms (default "" (query_params request !! "search")).

Definition search_terms `{Collaborators} (request : Request) : list string :=
  match search_param request with
  | inr terms => terms
  | inl _ => []
  end.

(** The exception the filter backends raise for a request, if any: the
    exact-match backend runs first and refuses a malformed [due_date], the
    search backend then refuses a [search] value that does not validate. *)
Definition filter_error `{Collaborators} (request : Request) : option exn :=
  match due_date_param request with
  | DueInvalid =>
      Some (ValidationError {[ "due_date" := ["Enter a valid date."] ]})
  | _ =>
      match search_param request with
      | inl reasons => Some (ValidationErrorList reasons)
      | inr _ => None
      end
  end.

(** A task matches one search term when its title or its description
    contains it, case-insensitively. *)
Definition term_matches (t : Task) (term : string) : Prop :=
  icontains term (task_title t) = true
  ∨ ∃ s, task_description t = Some s ∧ icontains term s = true.

(** A task passes the filters of a request. *)
Definition passes_filters `{Collaborators} (request : Request) (t : Task) : Prop :=
  (∀ b, completed_param request = Some b → task_completed t = b)
  ∧ (∀ d, due_date_param request = DueOn d → task_due_date t = Some d)
  ∧ (∀ term, term ∈ search_terms request → term_matches t term).

(** What [get_object] raises when the caller owns no row with the requested
    primary key. *)
Definition lookup_failure `{Collaborators} (request : Request) : exn :=
  default task_not_found (filter_error request).

(** The actions that address one task by its id. *)
Definition detail_actions `{Collaborators}
    : list (ViewSetClass → View → M Response) :=
  [mixins.retrieve; mixins.update false; mixins.update true; mixins.destroy].

(** The keyword arguments the [Task] constructor accepts from a serializer:
    writable columns only, each of the type of its column.  Whatever is
    bound to [user] is allowed: it does not survive [perform_create]. *)
Definition accepts {A} (conv : value → result A) (kw : dict) (name : string)
    : Prop :=
  match kw !! name with
  | Some v => ∃ a, conv v = Ok a
  | None => True
  end.

Definition writable_columns : gset string :=
  {[ "user"; "title"; "description"; "due_date"; "completed" ]}.

Definition valid_task_fields (kw : dict) : Prop :=
  dom kw ⊆ writable_columns
  ∧ accepts as_str kw "title"
  ∧ accepts as_opt_str kw "description"
  ∧ accepts as_opt_date kw "due_date"
  ∧ accepts as_bool kw "completed".

(** The body [post] builds for a created user. *)
Definition public_user (user : User) : dict :=
  {[ "id" := VInt (user_id user);
     "username" := VStr (user_username user);
     "email" := VStr (user_email user) ]}.

(** A valid registration input: the external validator accepts it, and what
    it hands on names the user and has strings where strings belong. *)
Definition valid_registration `{Collaborators} (db : DB) (data : dict)
    (validated_data : dict) : Prop :=
  UserSerializer_run_validation db None false data = inr validated_data
  ∧ (∃ name, validated_data !! "username" = Some (VStr name))
  ∧ accepts as_str validated_data "email"
  ∧ accepts as_str validated_data "password".

(** ** The routed actions of the task view set *)

(** The actions that hand a queryset or an instance to a serializer. *)
Definition serializing_actions `{Collaborators}
    : list (ViewSetClass → View → M Response) :=
  [mixins.create; mixins.list; mixins.retrieve; mixins.update false;
   mixins.update true].

(** The actions that start from [filter_queryset(get_queryset())]. *)
Definition queryset_actions `{Collaborators}
    : list (ViewSetClass → View → M Response) :=
  mixins.list :: detail_actions.

(** Every action [ModelViewSet] routes. *)
Definition task_actions `{Collaborators}
    : list (ViewSetClass → View → M Response) :=
  serializing_actions ++ [mixins.destroy].

(** A request whose query parameters restrict nothing. *)
Definition no_filters `{Collaborators} (request : Request) : Prop :=
  completed_param request = None
  ∧ due_date_param request = DueAny
  ∧ search_param request = inr [].

(** The three query parameters the class declares. *)
Definition declared_parameters : list string :=
  ["completed"; "due_date"; "search"].

(** * Properties *)

(** Closes a decidable, closed goal by evaluation. *)
Ltac by_compute := apply (bool_decide_unpack _); vm_compute; exact I.

(** ** The request monad *)

Lemma bind_ok {A B} (m : M A) (k : A → M B) db a db' :
  m db = (Ok a, db') → bind m k db = k a db'.
Proof. intros E. unfold bind. by rewrite E. Qed.

Lemma bind_raise {A B} (m : M A) (k : A → M B) db e db' :
  m db = (Raise e, db') → bind m k db = (Raise e, db').
Proof. intros E. unfold bind. by rewrite E. Qed.

Lemma dispatch_raise `{Collaborators} {Obj} (mro : list (gmap string (attr Obj)))
    (handler : View → M Response) view db e db' :
  check_permissions (get_permissions mro) (view_request view) view = Ok tt →
  handler view db = (Raise e, db') →
  dispatch mro handler view db = (handle_exception e, db').
Proof.
  intros Hperm Hrun. unfold dispatch, bind, lift. by rewrite Hperm, Hrun.
Qed.

Lemma dispatch_ok `{Collaborators} {Obj} (mro : list (gmap string (attr Obj)))
    (handler : View → M Response) view db r db' :
  check_permissions (get_permissions mro) (view_request view) view = Ok tt →
  handler view db = (Ok r, db') →
  dispatch mro handler view db = (r, db').
Proof.
  intros Hperm Hrun. unfold dispatch, bind, lift. by rewrite Hperm, Hrun.
Qed.

(** ** Class attributes of the two views *)

Lemma TaskViewSet_permission_classes `{Collaborators} :
  get_permissions (vs_mro TaskViewSet.cls)
  = [IsAuthenticated; IsOwnerPermission.cls].
Proof. reflexivity. Qed.

Lemma TaskViewSet_filter_backends `{Collaborators} :
  get_filter_backends (vs_mro TaskViewSet.cls)
  = [DjangoFilterBackend; SearchFilter].
Proof. reflexivity. Qed.

Lemma TaskViewSet_filterset_fields `{Collaborators} :
  getattr (vs_mro TaskViewSet.cls) "filterset_fields"
  = Some (AStrings ["completed"; "due_date"]).
Proof. reflexivity. Qed.

Lemma TaskViewSet_search_fields `{Collaborators} :
  getattr (vs_mro TaskViewSet.cls) "search_fields"
  = Some (AStrings ["title"; "description"]).
Proof. reflexivity. Qed.

Lemma TaskViewSet_serializer_class `{Collaborators} :
  getattr (vs_mro TaskViewSet.cls) "serializer_class" = Some ANone.
Proof. reflexivity. Qed.

Lemma RegisterView_serializer_class `{Collaborators} :
  get_serializer_class RegisterView.mro = Ok UserSerializer.
Proof. reflexivity. Qed.

Lemma TaskViewSet_check_permissions `{Collaborators} view u :
  request_user (view_request view) = Some u →
  check_permissions (get_permissions (vs_mro TaskViewSet.cls))
    (view_request view) view = Ok tt.
Proof.
  intros Hu. rewrite TaskViewSet_permission_classes. simpl.
  rewrite Hu. rewrite bool_decide_true by eauto. reflexivity.
Qed.

Lemma search_fields_match (t : Task) (term : string) :
  existsb (field_icontains t term) ["title"; "description"] = true
  ↔ term_matches t term.
Proof.
  unfold term_matches, field_icontains. simpl.
  destruct (task_description t) as [s|]; simpl;
    rewrite ?orb_false_r, ?orb_true_iff; split.
  - intros [?|?]; [by left | right; eauto].
  - intros [?|(s' & [= <-] & ?)]; [by left | by right].
  - by left.
  - intros [?|(s' & [=] & ?)]. done.
Qed.

Lemma exact_completed (t : Task) (b : bool) :
  exact t ("completed", VBool b) = true ↔ task_completed t = b.
Proof.
  unfold exact. simpl. rewrite bool_decide_eq_true.
  unfold Task_getattr. simpl. split; [by intros [= ->] | by intros ->].
Qed.

Lemma exact_due_date (t : Task) (d : date) :
  exact t ("due_date", VDate d) = true ↔ task_due_date t = Some d.
Proof.
  unfold exact. simpl. rewrite bool_decide_eq_true.
  unfold Task_getattr. simpl.
  destruct (task_due_date t); simpl; split; intros E; by simplify_eq.
Qed.

(** The search backend of the task view set. *)
Lemma TaskViewSet_search `{Collaborators} request qs :
  match search_param request with
  | inl reasons =>
      filter_backend_queryset (vs_mro TaskViewSet.cls) SearchFilter request qs
      = Raise (ValidationErrorList reasons)
  | inr terms =>
      ∃ qs', filter_backend_queryset (vs_mro TaskViewSet.cls) SearchFilter
               request qs = Ok qs'
             ∧ qs' `sublist_of` qs
             ∧ ∀ t, t ∈ qs' ↔ t ∈ qs
                      ∧ ∀ term, term ∈ terms → term_matches t term
  end.
Proof.
  unfold filter_backend_queryset. fold (search_param request).
  destruct (search_param request) as [reasons|terms]; [done|].
  rewrite TaskViewSet_search_fields.
  destruct terms as [|term terms].
  - exists qs. split_and!; [done | done |].
    intros t. split; [|by intros []]. intros ?. split; [done|].
    intros ? ?%elem_of_nil. done.
  - eexists. split_and!; [done | apply sublist_filter |].
    intros t. rewrite list_elem_of_filter, forallb_forall.
    split.
    + intros [Hm ?]. split; [done|]. intros x Hx.
      apply search_fields_match, Hm. by apply list_elem_of_In.
    + intros [? Hm]. split; [|done]. intros x Hx.
      apply search_fields_match, Hm. by apply list_elem_of_In.
Qed.

Lemma filterset_clean_TaskViewSet `{Collaborators} (params : gmap string string) :
  filterset_clean ["completed"; "due_date"] params
  = let due :=
      match params !! "due_date" with
      | None => (∅, [])
      | Some raw =>
          if decide (raw = "") then (∅, [])
          else match parse_date raw with
               | Some d => (∅, [("due_date", VDate d)])
               | None => ({[ "due_date" := ["Enter a valid date."] ]}, [])
               end
      end in
    Ok (due.1,
        match params !! "completed" ≫= BooleanWidget with
        | Some b => ("completed", VBool b) :: due.2
        | None => due.2
        end).
Proof.
  simpl.
  change (Task_field_type "due_date") with (Some DateField).
  change (Task_field_type "completed") with (Some BooleanField).
  destruct (params !! "due_date") as [raw|]; simpl.
  - destruct (decide (raw = "")); simpl.
    + destruct (params !! "completed") as [c|]; simpl; [|done].
      by destruct (BooleanWidget c).
    + destruct (parse_date raw); simpl;
        (destruct (params !! "completed") as [c|]; simpl; [|done]);
        by destruct (BooleanWidget c).
  - destruct (params !! "completed") as [c|]; simpl; [|done].
    by destruct (BooleanWidget c).
Qed.

(** The exact-match backend of the task view set. *)
Lemma TaskViewSet_django_filter `{Collaborators} request qs :
  match due_date_param request with
  | DueInvalid =>
      filter_backend_queryset (vs_mro TaskViewSet.cls) DjangoFilterBackend
        request qs
      = Raise (ValidationError {[ "due_date" := ["Enter a valid date."] ]})
  | _ =>
      ∃ qs', filter_backend_queryset (vs_mro TaskViewSet.cls)
               DjangoFilterBackend request qs = Ok qs'
             ∧ qs' `sublist_of` qs
             ∧ ∀ t, t ∈ qs' ↔ t ∈ qs
                  ∧ (∀ b, completed_param request = Some b → task_completed t = b)
                  ∧ (∀ d, due_date_param request = DueOn d
                          → task_due_date t = Some d)
  end.
Proof.
  unfold filter_backend_queryset. rewrite TaskViewSet_filterset_fields.
  rewrite filterset_clean_TaskViewSet.
  unfold due_date_param, completed_param.
  destruct (query_params request !! "due_date") as [raw|]; simpl;
    [destruct (decide (raw = "")); simpl; [|destruct (parse_date raw); simpl]|].
  all: try done.
  all: eexists; (split; [reflexivity|]); (split; [apply sublist_filter|]).
  all: intros t; rewrite list_elem_of_filter.
  all: destruct (query_params request !! "completed" ≫= BooleanWidget) as [b|];
    simpl; rewrite ?andb_true_r, ?andb_true_iff, ?exact_completed,
             ?exact_due_date.
  all: intuition (simplify_eq; eauto).
Qed.

(** Both backends in the order the class lists them. *)
Lemma TaskViewSet_filter_queryset `{Collaborators} request qs :
  match filter_error request with
  | Some e => filter_queryset (vs_mro TaskViewSet.cls) request qs = Raise e
  | None =>
      ∃ qs', filter_queryset (vs_mro TaskViewSet.cls) request qs = Ok qs'
             ∧ qs' `sublist_of` qs
             ∧ ∀ t, t ∈ qs' ↔ t ∈ qs ∧ passes_filters request t
  end.
Proof.
  unfold filter_queryset, filter_error. rewrite TaskViewSet_filter_backends.
  pose proof (TaskViewSet_django_filter request qs) as Hd.
  cbn [apply_backends].
  unfold passes_filters, search_terms.
  destruct (due_date_param request) eqn:Edue.
  2: { by rewrite Hd. }
  all: destruct Hd as (qs1 & -> & Hsub1 & Hin1); cbn [result_bind].
  all: pose proof (TaskViewSet_search request qs1) as Hs.
  all: destruct (search_param request) as [reasons|terms];
    [by rewrite Hs|].
  all: destruct Hs as (qs2 & -> & Hsub2 & Hin2); cbn [result_bind].
  all: exists qs2; split; [done|]; split; [by etrans|].
  all: intros t; rewrite Hin2, Hin1.
  all: intuition eauto.
Qed.

Lemma TaskViewSet_get_queryset view u db :
  request_user (view_request view) = Some u →
  TaskViewSet.get_queryset view db
  = (Ok (filter (λ t, task_user t = u) (tasks db)), db).
Proof. intros Hu. unfold TaskViewSet.get_queryset. by rewrite Hu. Qed.

(** The queryset behind every action of the task view set: the caller's rows
    that pass the filters, in storage order; the database is only read. *)
Lemma TaskViewSet_filtered_queryset `{Collaborators} view u db :
  request_user (view_request view) = Some u →
  match filter_error (view_request view) with
  | Some e =>
      GenericAPIView.filtered_queryset TaskViewSet.cls view db = (Raise e, db)
  | None =>
      ∃ qs, GenericAPIView.filtered_queryset TaskViewSet.cls view db = (Ok qs, db)
            ∧ qs `sublist_of` tasks db
            ∧ ∀ t, t ∈ qs ↔ t ∈ tasks db ∧ task_user t = u
                             ∧ passes_filters (view_request view) t
  end.
Proof.
  intros Hu. unfold GenericAPIView.filtered_queryset.
  erewrite bind_ok by (by apply TaskViewSet_get_queryset).
  pose proof (TaskViewSet_filter_queryset (view_request view)
                (filter (λ t, task_user t = u) (tasks db))) as Hf.
  unfold lift.
  destruct (filter_error (view_request view)) as [e|]; [by rewrite Hf|].
  destruct Hf as (qs & -> & Hsub & Hin); exists qs.
  split; [done|]; split; [etrans; [done|apply sublist_filter]|].
  intros t; rewrite Hin, list_elem_of_filter; intuition eauto.
Qed.

Lemma NoDup_fmap_eq {A B} (f : A → B) (l : list A) x y :
  NoDup (f <$> l) → x ∈ l → y ∈ l → f x = f y → x = y.
Proof.
  induction l as [|a l IH]; simpl; [by intros _ ?%elem_of_nil|].
  rewrite NoDup_cons, !elem_of_cons. intros [Hnotin Hnd] Hx Hy Hf.
  destruct Hx as [->|Hx], Hy as [->|Hy]; [done| | |by apply IH].
  - destruct Hnotin. rewrite Hf. by apply list_elem_of_fmap_2.
  - destruct Hnotin. rewrite <- Hf. by apply list_elem_of_fmap_2.
Qed.

Lemma get_object_or_404_none (qs : list Task) (pk : Z) :
  (∀ t, t ∈ qs → task_id t ≠ pk) →
  get_object_or_404 qs pk = Raise task_not_found.
Proof.
  intros Hnone. unfold get_object_or_404.
  destruct (filter (λ t, task_id t = pk) qs) as [|t l] eqn:E; [done|].
  assert (t ∈ filter (λ t, task_id t = pk) qs) as Ht by (rewrite E; left).
  apply list_elem_of_filter in Ht as [? ?]. by destruct (Hnone t).
Qed.

Lemma TaskViewSet_get_object_not_owned `{Collaborators} view u pk db :
  request_user (view_request view) = Some u →
  view_kwargs view !! "pk" = Some pk →
  (∀ t, t ∈ tasks db → task_id t = pk → task_user t ≠ u) →
  GenericAPIView.get_object TaskViewSet.cls view db
  = (Raise (lookup_failure (view_request view)), db).
Proof.
  intros Hu Hpk Hother. unfold GenericAPIView.get_object, lookup_failure.
  pose proof (TaskViewSet_filtered_queryset view u db Hu) as Hq.
  destruct (filter_error (view_request view)) as [e|];
    [by erewrite bind_raise|].
  destruct Hq as (qs & Hq & _ & Hin).
  erewrite bind_ok by done; rewrite Hpk.
  apply bind_raise; unfold lift; f_equal.
  apply get_object_or_404_none; intros t [? [? _]]%Hin ?; by eapply Hother.
Qed.

Lemma TaskViewSet_no_serializer_class `{Collaborators} :
  get_serializer_class (vs_mro TaskViewSet.cls)
  = Raise (serializer_class_missing (vs_mro TaskViewSet.cls)).
Proof. reflexivity. Qed.

(** The list action reads the database and then fails: on the filters, or
    on the serializer class it cannot find. *)
Lemma TaskViewSet_list_raises `{Collaborators} view u db :
  request_user (view_request view) = Some u →
  mixins.list TaskViewSet.cls view db
  = (Raise (default (serializer_class_missing (vs_mro TaskViewSet.cls))
              (filter_error (view_request view))), db).
Proof.
  intros Hu. unfold mixins.list.
  pose proof (TaskViewSet_filtered_queryset view u db Hu) as Hq.
  destruct (filter_error (view_request view)) as [e|];
    [by erewrite bind_raise|].
  destruct Hq as (qs & Hq & _).
  erewrite bind_ok by done.
  by rewrite TaskViewSet_no_serializer_class.
Qed.

(** ** Ownership isolation *)

Lemma detail_action_not_owned `{Collaborators} action view u pk db :
  action ∈ detail_actions →
  request_user (view_request view) = Some u →
  view_kwargs view !! "pk" = Some pk →
  (∀ t, t ∈ tasks db → task_id t = pk → task_user t ≠ u) →
  as_view TaskViewSet.cls action view db
  = (handle_exception (lookup_failure (view_request view)), db).
Proof.
  intros Hact Hu Hpk Hother.
  pose proof (TaskViewSet_get_object_not_owned view u pk db Hu Hpk Hother) as Hg.
  unfold as_view. apply dispatch_raise; [by eapply TaskViewSet_check_permissions|].
  unfold detail_actions in Hact.
  repeat (apply elem_of_cons in Hact as [->|Hact]);
    [..|by apply elem_of_nil in Hact].
  - unfold mixins.retrieve. by apply bind_raise.
  - unfold mixins.update. by apply bind_raise.
  - unfold mixins.update. by apply bind_raise.
  - unfold mixins.destroy. by apply bind_raise.
Qed.

(** C1, as amended.  Ownership isolation.  Let [t] be a stored task whose
    owner is not the caller [b].  Whatever the filter and search parameters,
    the queryset that [list] serializes never contains [t], and [list]
    leaves the database as it was.  Retrieve, update, partial update and
    delete as [b] on the id of [t] answer exactly as they do on an id that
    no task has, change nothing and never answer 403: the answer is 404 Not
    Found when the [due_date] and [search] parameters of the request are
    well formed, and otherwise the 400 validation error that the filter
    backends raise before the lookup. *)
Theorem ownership_isolation `{Collaborators} (db : DB) (t : Task) (b : Z)
    (request : Request) (missing : Z)
    (action : ViewSetClass → View → M Response) :
  pk_unique db →
  t ∈ tasks db →
  task_user t ≠ b →
  request_user request = Some b →
  missing ∉ (task_id <$> tasks db) →
  action ∈ detail_actions →
  let on_task := mkView request {[ "pk" := task_id t ]} in
  let on_missing := mkView request {[ "pk" := missing ]} in
  (∀ kwargs qs db',
     GenericAPIView.filtered_queryset TaskViewSet.cls (mkView request kwargs) db
     = (Ok qs, db') → t ∉ qs)
  ∧ (∀ kwargs,
       (as_view TaskViewSet.cls mixins.list (mkView request kwargs) db).2 = db)
  ∧ as_view TaskViewSet.cls action on_task db
    = as_view TaskViewSet.cls action on_missing db
  ∧ (as_view TaskViewSet.cls action on_task db).2 = db
  ∧ status_code (as_view TaskViewSet.cls action on_task db).1
    ≠ HTTP_403_FORBIDDEN
  ∧ (filter_error request = None →
     status_code (as_view TaskViewSet.cls action on_task db).1
     = HTTP_404_NOT_FOUND)
  ∧ (∀ e, filter_error request = Some e →
       (as_view TaskViewSet.cls action on_task db).1 = handle_exception e
       ∧ status_code (handle_exception e) = HTTP_400_BAD_REQUEST).
Proof.
  intros Hpk Ht Howner Hb Hmissing Hact on_task on_missing.
  assert (as_view TaskViewSet.cls action on_task db
          = (handle_exception (lookup_failure request), db)) as Htask.
  { apply (detail_action_not_owned action on_task b (task_id t));
      [done | done | apply lookup_singleton_eq |].
    intros t' Ht' Hid. by rewrite (NoDup_fmap_eq task_id (tasks db) t' t). }
  assert (as_view TaskViewSet.cls action on_missing db
          = (handle_exception (lookup_failure request), db)) as Hnone.
  { apply (detail_action_not_owned action on_missing b missing);
      [done | done | apply lookup_singleton_eq |].
    intros t' Ht' Hid. destruct Hmissing. rewrite <- Hid.
    by apply list_elem_of_fmap_2. }
  assert (∀ e, filter_error request = Some e →
               status_code (handle_exception e) = HTTP_400_BAD_REQUEST)
    as Hbad.
  { intros e. unfold filter_error.
    destruct (due_date_param request), (search_param request);
      by intros [= <-]. }
  split_and!.
  - intros kwargs qs db' Hq Hin.
    pose proof (TaskViewSet_filtered_queryset (mkView request kwargs) b db Hb) as Hf.
    simpl in Hf. destruct (filter_error request) as [e|].
    { by rewrite Hf in Hq. }
    destruct Hf as (qs' & Hq' & _ & Hin'); rewrite Hq' in Hq.
    injection Hq as <- <-; apply Hin' in Hin as (_ & ? & _); done.
  - intros kwargs. unfold as_view.
    erewrite dispatch_raise; [done | by eapply TaskViewSet_check_permissions |].
    by apply TaskViewSet_list_raises with (u := b).
  - by rewrite Htask, Hnone.
  - by rewrite Htask.
  - rewrite Htask. unfold lookup_failure. simpl.
    destruct (filter_error request) as [e|] eqn:He; [|done].
    simpl. by rewrite (Hbad e).
  - intros Hvalid. rewrite Htask. unfold lookup_failure. by rewrite Hvalid.
  - intros e He. rewrite Htask. unfold lookup_failure. rewrite He.
    split; [done | by apply Hbad].
Qed.

Lemma ownership_isolation_witness :
  let request := Sample.request (Some Sample.bob) [] [] in
  let t := mkTask 1 Sample.alice "Write report" (Some "quarterly numbers")
             (Some (mkdate 2024 5 1)) false in
  let outcome :=
    @as_view Sample.collaborators (@TaskViewSet.cls Sample.collaborators)
      (@mixins.retrieve Sample.collaborators)
      (mkView request {[ "pk" := task_id t ]}) Sample.db0 in
  t ∈ tasks Sample.db0
  ∧ status_code outcome.1 = HTTP_404_NOT_FOUND
  ∧ outcome.2 = Sample.db0.
Proof.
  intros request t outcome. split; [left|].
  destruct (@ownership_isolation Sample.collaborators Sample.db0 t
              Sample.bob request 77 (@mixins.retrieve Sample.collaborators))
    as (_ & _ & _ & Hdb & _ & Hresponse & _).
  - by_compute.
  - left.
  - done.
  - done.
  - by_compute.
  - left.
  - split; [by apply Hresponse | exact Hdb].
Defined.

(** C1, as stated, fails.  Bob retrieves a task of Alice with a [due_date]
    parameter that is not a date: the answer is the 400 validation error of
    the filter backend, not 404 Not Found. *)
Lemma ownership_isolation_counterexample :
  let C := Sample.collaborators in
  let request := Sample.request (Some Sample.bob) [("due_date", "tomorrow")] [] in
  let t := mkTask 1 Sample.alice "Write report" (Some "quarterly numbers")
             (Some (mkdate 2024 5 1)) false in
  let response :=
    (as_view TaskViewSet.cls mixins.retrieve
       (mkView request {[ "pk" := task_id t ]}) Sample.db0).1 in
  t ∈ tasks Sample.db0
  ∧ task_user t ≠ Sample.bob
  ∧ response = mkResponse HTTP_400_BAD_REQUEST
                 (BErrors {[ "due_date" := ["Enter a valid date."] ]})
  ∧ status_code response ≠ HTTP_404_NOT_FOUND.
Proof.
  intros C request t response.
  assert (response = mkResponse HTTP_400_BAD_REQUEST
                       (BErrors {[ "due_date" := ["Enter a valid date."] ]}))
    as Hresponse by by vm_compute.
  split; [left|]. split; [done|]. split; [done|]. by rewrite Hresponse.
Qed.

(** ** Creation forces the owner *)

Lemma result_bind_ok {A B} (r : result A) (k : A → result B) b :
  result_bind r k = Ok b → ∃ a, r = Ok a ∧ k a = Ok b.
Proof. destruct r as [a|e]; simpl; [eauto | done]. Qed.

Lemma Task_init_ok pk kw t :
  Task_init pk kw = Ok t →
  task_id t = pk ∧ kw !! "user" = Some (VUser (task_user t)).
Proof.
  unfold Task_init. case_decide; [|done].
  intros (u & Hu & E)%result_bind_ok.
  apply result_bind_ok in E as (ti & _ & E).
  apply result_bind_ok in E as (de & _ & E).
  apply result_bind_ok in E as (du & _ & E).
  apply result_bind_ok in E as (co & _ & E).
  injection E as <-. simpl. split; [done|].
  unfold kwarg in Hu. destruct (kw !! "user") as [[]|]; by simplify_eq/=.
Qed.

Lemma Task_objects_create_ok kw db t db' :
  Task_objects_create kw db = (Ok t, db') →
  kw !! "user" = Some (VUser (task_user t))
  ∧ (task_id t ∉ task_id <$> tasks db)
  ∧ db' = insert_task t db.
Proof.
  unfold Task_objects_create.
  destruct (result_bind _ _) as [t'|e] eqn:E; [|done].
  intros [= -> <-].
  apply result_bind_ok in E as (pk & Hpk & [<- Huser]%Task_init_ok).
  split; [done|]. split; [|done].
  destruct (kw !! "id") as [[]|]; simplify_eq/=.
  - case_decide; by simplify_eq.
  - unfold next_id in Hpk. intros (r & Hr & Hin)%list_elem_of_fmap.
    assert (∀ l : list Z, ∀ z, z ∈ l → (z ≤ foldr Z.max 0 l)%Z) as Hmax.
    { induction l as [|a l IH]; intros z; [by intros ?%elem_of_nil|].
      simpl. intros [->|Hz%IH]%elem_of_cons; lia. }
    assert (task_id r ≤ foldr Z.max 0 (task_id <$> tasks db))%Z
      by (by apply Hmax, list_elem_of_fmap_2).
    lia.
Qed.

Lemma Task_objects_create_raise kw db e db' :
  Task_objects_create kw db = (Raise e, db') → db' = db.
Proof.
  unfold Task_objects_create.
  destruct (result_bind _ _); by intros [= <-].
Qed.

(** Inserting keeps the primary key constraint. *)
Lemma Task_objects_create_pk_unique kw db r db' :
  pk_unique db → Task_objects_create kw db = (r, db') → pk_unique db'.
Proof.
  intros Hnd Hc. destruct r as [t|e].
  - apply Task_objects_create_ok in Hc as (_ & Hfresh & ->).
    unfold pk_unique in *. simpl. rewrite fmap_app. simpl.
    apply NoDup_app. split; [done|]. split; [|apply NoDup_singleton].
    intros x Hx ->%list_elem_of_singleton. done.
  - by apply Task_objects_create_raise in Hc as ->.
Qed.

Lemma kwarg_accepts {A} (conv : value → result A) kw name dflt :
  accepts conv kw name → ∃ a, kwarg kw name conv (Ok dflt) = Ok a.
Proof. unfold accepts, kwarg. destruct (kw !! name); eauto. Qed.

Lemma perform_create_kwargs (caller : Z) (validated_data : dict) name :
  name ≠ "user" →
  (({[ "user" := VUser caller ]} : dict) ∪ validated_data) !! name
  = validated_data !! name.
Proof.
  intros Hne. rewrite lookup_union, lookup_singleton_ne by done.
  by rewrite (left_id None _).
Qed.

Lemma perform_create_user (caller : Z) (validated_data : dict) :
  (({[ "user" := VUser caller ]} : dict) ∪ validated_data) !! "user"
  = Some (VUser caller).
Proof. apply lookup_union_Some_l, lookup_singleton_eq. Qed.

(** C2.  [perform_create] stores a task owned by the caller, whatever owner
    the validated input names: when it returns, the new row is owned by the
    caller and is the only change; when it raises, nothing has changed; and
    for fields the [Task] constructor accepts it does return, even if they
    bind [user] to someone else. *)
Theorem perform_create_owner_is_caller `{Collaborators} (view : View)
    (caller : Z) (validated_data : dict) (db : DB) :
  request_user (view_request view) = Some caller →
  let serializer := mkSerializer TaskSerializer None validated_data in
  (∀ task db',
     TaskViewSet.perform_create view serializer db = (Ok task, db') →
     task_user task = caller ∧ db' = insert_task task db)
  ∧ (∀ e db',
       TaskViewSet.perform_create view serializer db = (Raise e, db') → db' = db)
  ∧ (valid_task_fields validated_data →
     ∃ task, TaskViewSet.perform_create view serializer db
             = (Ok task, insert_task task db)
             ∧ task_user task = caller).
Proof.
  intros Hcaller serializer.
  assert (∀ r db', TaskViewSet.perform_create view serializer db = (r, db') →
            Task_objects_create ({[ "user" := VUser caller ]} ∪ validated_data) db
            = (r, db')) as Hrun.
  { intros r db'. unfold TaskViewSet.perform_create, save. simpl.
    by rewrite Hcaller. }
  assert (∀ task db',
     TaskViewSet.perform_create view serializer db = (Ok task, db') →
     task_user task = caller ∧ db' = insert_task task db) as Hok.
  { intros task db' (Huser & _ & ->)%Hrun%Task_objects_create_ok. split; [|done].
    rewrite perform_create_user in Huser. by simplify_eq. }
  split_and!; [done| |].
  - intros e db' ?%Hrun. by eapply Task_objects_create_raise.
  - intros (Hdom & Hti & Hde & Hdu & Hco).
    destruct (TaskViewSet.perform_create view serializer db) as [[task|e] db']
      eqn:E.
    { destruct (Hok _ _ eq_refl) as [? ->]. eauto. }
    exfalso. clear E. pose proof (Hrun _ _ eq_refl) as E.
    unfold Task_objects_create in E.
    assert (validated_data !! "id" = None) as Hid.
    { apply not_elem_of_dom. intros Hin%Hdom. revert Hin. by_compute. }
    rewrite perform_create_kwargs, Hid in E by done. simpl in E.
    unfold Task_init in E.
    rewrite decide_True in E.
    2: { rewrite dom_union, dom_singleton. intros x.
         rewrite elem_of_union, elem_of_singleton.
         intros [->|Hin%Hdom]; [by_compute|]. revert Hin.
         unfold writable_columns, Task_fields.
         rewrite elem_of_list_to_set, !elem_of_union, !elem_of_singleton,
           !elem_of_cons.
         intuition. }
    unfold kwarg at 1 in E. rewrite perform_create_user in E. simpl in E.
    unfold kwarg in E. rewrite !perform_create_kwargs in E by done.
    fold (kwarg validated_data "title" as_str (Ok "")) in E.
    fold (kwarg validated_data "description" as_opt_str (Ok None)) in E.
    fold (kwarg validated_data "due_date" as_opt_date (Ok None)) in E.
    fold (kwarg validated_data "completed" as_bool (Ok false)) in E.
    destruct (kwarg_accepts as_str validated_data "title" "" Hti) as [? E1].
    destruct (kwarg_accepts as_opt_str validated_data "description" None Hde)
      as [? E2].
    destruct (kwarg_accepts as_opt_date validated_data "due_date" None Hdu)
      as [? E3].
    destruct (kwarg_accepts as_bool validated_data "completed" false Hco)
      as [? E4].
    rewrite E1 in E. simpl in E. rewrite E2 in E. simpl in E.
    rewrite E3 in E. simpl in E. rewrite E4 in E. simpl in E. done.
Qed.

Lemma perform_create_owner_is_caller_witness :
  let view := Sample.collection (Sample.request (Some Sample.alice) [] []) in
  let spoofed : dict :=
    list_to_map [("title", VStr "Water plants"); ("user", VUser Sample.bob)] in
  ∃ task,
    TaskViewSet.perform_create view
      (mkSerializer (@TaskSerializer Sample.collaborators) None spoofed)
      Sample.db0
    = (Ok task, insert_task task Sample.db0)
    ∧ task_user task = Sample.alice.
Proof.
  intros view spoofed.
  apply (@perform_create_owner_is_caller Sample.collaborators view
           Sample.alice spoofed Sample.db0); [reflexivity|].
  split; [by_compute|].
  unfold accepts. split_and!; vm_compute; eauto.
Defined.

(** ** Registration *)

Lemma RegisterView_check_permissions `{Collaborators} view :
  check_permissions (get_permissions RegisterView.mro) (view_request view) view
  = Ok tt.
Proof. reflexivity. Qed.

Lemma public_user_fields (user : User) :
  dom (public_user user) = ({[ "id"; "username"; "email" ]} : gset string)
  ∧ public_user user !! "password" = None.
Proof.
  unfold public_user. split; [|reflexivity].
  rewrite !dom_insert_L, dom_singleton_L.
  apply set_eq. intros x. rewrite !elem_of_union, !elem_of_singleton.
  intuition.
Qed.

Lemma RegisterView_post_invalid `{Collaborators} view db errors :
  UserSerializer_run_validation db None false (request_data (view_request view))
  = inl errors →
  RegisterView.post view db = (Raise (ValidationError errors), db).
Proof.
  intros Hv. unfold RegisterView.post, get_valid_serializer.
  rewrite RegisterView_serializer_class.
  unfold bind, lift, get_db. simpl. by rewrite Hv.
Qed.

Lemma RegisterView_post_valid `{Collaborators} view db validated_data :
  UserSerializer_run_validation db None false (request_data (view_request view))
  = inr validated_data →
  RegisterView.post view db
  = match User_objects_create_user validated_data db with
    | (Ok user, db') =>
        (Ok (mkResponse HTTP_201_CREATED (BDict (public_user user))), db')
    | (Raise e, db') => (Raise e, db')
    end.
Proof.
  intros Hv. unfold RegisterView.post, get_valid_serializer.
  rewrite RegisterView_serializer_class.
  unfold bind, lift, get_db, save. simpl. rewrite Hv. simpl.
  rewrite (left_id_L ∅ (∪) validated_data).
  by destruct (User_objects_create_user validated_data db) as [[user|e] db'].
Qed.

Lemma User_objects_create_user_ok `{Collaborators} validated_data db user db' :
  User_objects_create_user validated_data db = (Ok user, db') →
  db' = insert_user user db
  ∧ validated_data !! "username" = Some (VStr (user_username user))
  ∧ user_id user = next_id (user_seq db) (user_id <$> users db).
Proof.
  unfold User_objects_create_user.
  destruct (result_bind _ _) as [[[name email] password]|e] eqn:E; [|done].
  intros [= <- <-]. split; [done|]. simpl. split; [|done].
  apply result_bind_ok in E as (name' & Hname & E).
  apply result_bind_ok in E as (email' & _ & E).
  apply result_bind_ok in E as (password' & _ & E).
  injection E as -> -> ->.
  unfold kwarg in Hname.
  destruct (validated_data !! "username") as [[]|]; by simplify_eq/=.
Qed.

Lemma User_objects_create_user_raise `{Collaborators} validated_data db e db' :
  User_objects_create_user validated_data db = (Raise e, db') → db' = db.
Proof.
  unfold User_objects_create_user.
  destruct (result_bind _ _) as [[[name email] password]|e']; by intros [= <-].
Qed.

Lemma User_objects_create_user_valid `{Collaborators} db data validated_data :
  valid_registration db data validated_data →
  ∃ user, User_objects_create_user validated_data db
          = (Ok user, insert_user user db).
Proof.
  intros (_ & [name Hname] & Hemail & Hpassword).
  destruct (User_objects_create_user validated_data db) as [[user|e] db'] eqn:E.
  { apply User_objects_create_user_ok in E as (-> & _). eauto. }
  exfalso. unfold User_objects_create_user in E.
  unfold kwarg at 1 in E. rewrite Hname in E. simpl in E.
  destruct (kwarg_accepts as_str validated_data "email" "" Hemail) as [? E1].
  rewrite E1 in E. simpl in E.
  unfold accepts in Hpassword. unfold kwarg in E.
  destruct (validated_data !! "password") as [v|]; [|done].
  destruct Hpassword as [s Hs]. by rewrite Hs in E.
Qed.

(** C3.  For every valid registration input the response has status 201 and
    its body is the dictionary with exactly the keys [id], [username] and
    [email], bound to the fields of the user that was created; there is no
    [password] key. *)
Theorem registration_response `{Collaborators} (view : View) (db : DB)
    (validated_data : dict) :
  valid_registration db (request_data (view_request view)) validated_data →
  ∃ user body,
    RegisterView.as_view view db
    = (mkResponse HTTP_201_CREATED (BDict body),
       insert_user user db)
    ∧ dom body = ({[ "id"; "username"; "email" ]} : gset string)
    ∧ body !! "password" = None
    ∧ body !! "id" = Some (VInt (user_id user))
    ∧ body !! "username" = Some (VStr (user_username user))
    ∧ body !! "email" = Some (VStr (user_email user)).
Proof.
  intros Hvalid.
  destruct (User_objects_create_user_valid _ _ _ Hvalid) as [user Hcreate].
  destruct Hvalid as (Hv & _).
  exists user, (public_user user).
  destruct (public_user_fields user) as [Hdom Hpw].
  split_and!; [|done..].
  unfold RegisterView.as_view.
  apply dispatch_ok; [apply RegisterView_check_permissions|].
  by rewrite (RegisterView_post_valid _ _ _ Hv), Hcreate.
Qed.

Lemma registration_response_witness :
  let data := [("username", VStr "carol"); ("email", VStr "carol@example.org");
               ("password", VStr "s3cret")] in
  let view := Sample.collection (Sample.request None [] data) in
  ∃ user body,
    @RegisterView.as_view Sample.collaborators view Sample.db0
    = (mkResponse HTTP_201_CREATED (BDict body),
       insert_user user Sample.db0)
    ∧ dom body = ({[ "id"; "username"; "email" ]} : gset string)
    ∧ body !! "password" = None
    ∧ body !! "id" = Some (VInt (user_id user))
    ∧ body !! "username" = Some (VStr (user_username user))
    ∧ body !! "email" = Some (VStr (user_email user)).
Proof.
  intros data view.
  apply (@registration_response Sample.collaborators view Sample.db0
           (list_to_map data)).
  split; [by vm_compute|]. unfold accepts.
  split_and!; vm_compute; eauto.
Defined.

(** C7.  Registration is atomic.  An input the validator rejects is answered
    with status 400 and the validator's field-to-reasons mapping, and the
    database is left as it was.  Whatever the input, a 201 response means
    that validation succeeded and that exactly one user row was added, and
    any other response means that nothing was persisted: the save is only
    reached after validation. *)
Theorem registration_atomic `{Collaborators} (view : View) (db : DB) :
  let validation :=
    UserSerializer_run_validation db None false
      (request_data (view_request view)) in
  (∀ errors, validation = inl errors →
     RegisterView.as_view view db
     = (mkResponse HTTP_400_BAD_REQUEST (BErrors errors), db))
  ∧ (∀ response db', RegisterView.as_view view db = (response, db') →
       (status_code response = HTTP_201_CREATED
        ∧ (∃ validated_data, validation = inr validated_data)
        ∧ ∃ user, db' = insert_user user db)
       ∨ (status_code response ≠ HTTP_201_CREATED ∧ db' = db)).
Proof.
  intros validation. split.
  - intros errors Hv. unfold RegisterView.as_view.
    apply (dispatch_raise _ _ _ _ (ValidationError errors));
      [apply RegisterView_check_permissions | by apply RegisterView_post_invalid].
  - intros response db'. unfold RegisterView.as_view.
    destruct validation as [errors|validated_data] eqn:Hv.
    + erewrite dispatch_raise;
        [| apply RegisterView_check_permissions
         | by apply RegisterView_post_invalid].
      intros [= <- <-]. right. by split.
    + pose proof (RegisterView_post_valid view db validated_data Hv) as Hpost.
      destruct (User_objects_create_user validated_data db) as [[user|e] db1]
        eqn:Hcreate.
      * erewrite dispatch_ok; [|apply RegisterView_check_permissions|done].
        intros [= <- <-]. left. split; [done|]. split; [eauto|].
        apply User_objects_create_user_ok in Hcreate as [-> _]. eauto.
      * erewrite dispatch_raise; [|apply RegisterView_check_permissions|done].
        apply User_objects_create_user_raise in Hcreate as ->.
        intros [= <- <-]. right. split; [|done].
        destruct e; simpl; try done. by destruct authenticate_header.
Qed.

Lemma registration_atomic_witness :
  let data := [("username", VStr "bob"); ("email", VStr "bob@example.net")] in
  let view := Sample.collection (Sample.request None [] data) in
  @RegisterView.as_view Sample.collaborators view Sample.db0
  = (mkResponse HTTP_400_BAD_REQUEST
       (BErrors {[ "username" := ["A user with that username already exists."];
                   "password" := ["This field is required."] ]}),
     Sample.db0).
Proof.
  intros data view.
  apply (@registration_atomic Sample.collaborators view Sample.db0).
  by vm_compute.
Defined.

(** ** The permission hook *)

(** C5.  [IsOwnerPermission.has_object_permission] returns what the default
    hook of [BasePermission] returns, for every request, view and task; its
    other hook is the inherited one; and leaving the class out of a list of
    permission classes changes neither the object-level nor the view-level
    check, for the list of the task view set in particular. *)
Theorem is_owner_permission_is_noop (request : Request) (view : View)
    (obj : Task) (before after : list (Permission Task)) :
  IsOwnerPermission.has_object_permission request view obj
  = BasePermission.has_object_permission request view obj
  ∧ has_permission IsOwnerPermission.cls request view
    = BasePermission.has_permission request view
  ∧ check_object_permissions (before ++ IsOwnerPermission.cls :: after)
      request view obj
    = check_object_permissions (before ++ after) request view obj
  ∧ check_permissions (before ++ IsOwnerPermission.cls :: after) request view
    = check_permissions (before ++ after) request view
  ∧ (∀ C : Collaborators,
       check_object_permissions (get_permissions (vs_mro TaskViewSet.cls))
         request view obj
       = check_object_permissions [IsAuthenticated] request view obj).
Proof.
  split_and!; [done | done | | | done].
  - induction before as [|p before IH]; simpl; [done|].
    by destruct (has_object_permission p request view obj).
  - induction before as [|p before IH]; simpl; [done|].
    by destruct (has_permission p request view).
Qed.

(** ** The serializer class of the task view set *)

Lemma dispatch_unchanged `{Collaborators} {Obj} (mro : list (gmap string (attr Obj)))
    (handler : View → M Response) view db :
  (handler view db).2 = db → (dispatch mro handler view db).2 = db.
Proof.
  unfold dispatch, bind, lift.
  destruct (check_permissions _ _ _) as [[]|e]; [|done].
  by destruct (handler view db) as [[r|e] db'].
Qed.

(** [get_object] only reads. *)
Lemma TaskViewSet_get_object_reads `{Collaborators} view db :
  (GenericAPIView.get_object TaskViewSet.cls view db).2 = db.
Proof.
  unfold GenericAPIView.get_object, GenericAPIView.filtered_queryset.
  unfold bind, lift, raise, ret. simpl. unfold TaskViewSet.get_queryset.
  destruct (request_user (view_request view)) as [u|]; [|done].
  unfold bind, get_db, ret.
  destruct (filter_queryset _ _ _) as [qs|e]; [|done].
  destruct (view_kwargs view !! "pk") as [pk|]; [|done].
  destruct (get_object_or_404 qs pk) as [obj|e]; [|done].
  by destruct (check_object_permissions _ _ _ _) as [[]|e].
Qed.

(** No action that needs a serializer gets past [get_serializer_class]:
    create, list, retrieve, update and partial update raise, and leave the
    database as they found it. *)
Lemma TaskViewSet_create_raises `{Collaborators} view db :
  mixins.create TaskViewSet.cls view db = (Raise (serializer_class_missing (vs_mro TaskViewSet.cls)), db).
Proof. reflexivity. Qed.

Lemma TaskViewSet_retrieve_raises `{Collaborators} view db :
  ∃ e, mixins.retrieve TaskViewSet.cls view db = (Raise e, db).
Proof.
  unfold mixins.retrieve, bind.
  pose proof (TaskViewSet_get_object_reads view db) as Hread.
  destruct (GenericAPIView.get_object TaskViewSet.cls view db) as [[obj|e] db'];
    simpl in Hread; subst db'; eauto.
Qed.

Lemma TaskViewSet_update_raises `{Collaborators} partial view db :
  ∃ e, mixins.update partial TaskViewSet.cls view db = (Raise e, db).
Proof.
  unfold mixins.update, bind.
  pose proof (TaskViewSet_get_object_reads view db) as Hread.
  destruct (GenericAPIView.get_object TaskViewSet.cls view db) as [[obj|e] db'];
    simpl in Hread; subst db'; eauto.
Qed.

Lemma TaskViewSet_retrieve_owned `{Collaborators} view obj db :
  GenericAPIView.get_object TaskViewSet.cls view db = (Ok obj, db) →
  mixins.retrieve TaskViewSet.cls view db = (Raise (serializer_class_missing (vs_mro TaskViewSet.cls)), db)
  ∧ ∀ partial, mixins.update partial TaskViewSet.cls view db
               = (Raise (serializer_class_missing (vs_mro TaskViewSet.cls)), db).
Proof.
  intros Hobj. split; [|intros partial].
  - unfold mixins.retrieve. by erewrite bind_ok.
  - unfold mixins.update. by erewrite bind_ok.
Qed.

(** C4.  The class body of the task view set binds the task serializer to
    the name [serialzer_class]; the attribute the framework reads,
    [serializer_class], keeps the value [None] it has in [GenericAPIView]
    (the registration view, which spells the name as the framework does,
    resolves its serializer).  So no operation is delegated to the task
    serializer: for an authenticated caller, create, list, retrieve and
    update of an own task all end in the assertion of
    [get_serializer_class], a server error. *)
Theorem task_serializer_is_not_configured :
  let C := Sample.collaborators in
  let alice := Sample.request (Some Sample.alice) []
                 [("title", VStr "Water plants")] in
  let failed :=
    (mkResponse HTTP_500_INTERNAL_SERVER_ERROR
       (BUncaught (serializer_class_missing (vs_mro TaskViewSet.cls))), Sample.db0) in
  TaskViewSet.namespace !! "serialzer_class" = Some (ASerializerClass TaskSerializer)
  ∧ TaskViewSet.namespace !! "serializer_class" = None
  ∧ getattr (vs_mro TaskViewSet.cls) "serializer_class" = Some ANone
  ∧ get_serializer_class (vs_mro TaskViewSet.cls) = Raise (serializer_class_missing (vs_mro TaskViewSet.cls))
  ∧ get_serializer_class RegisterView.mro = Ok UserSerializer
  ∧ as_view TaskViewSet.cls mixins.create (Sample.collection alice) Sample.db0
    = failed
  ∧ as_view TaskViewSet.cls mixins.list (Sample.collection alice) Sample.db0
    = failed
  ∧ as_view TaskViewSet.cls mixins.retrieve (Sample.detail alice 1) Sample.db0
    = failed
  ∧ as_view TaskViewSet.cls (mixins.update false) (Sample.detail alice 1)
      Sample.db0
    = failed.
Proof.
  intros C alice failed.
  split_and!; [reflexivity | reflexivity | reflexivity | reflexivity
              | reflexivity | by vm_compute..].
Qed.

(** C9.  Create then retrieve.  A caller who creates a task with a valid
    field set is answered with a server error instead of the created record,
    nothing is stored, and the id the record would have had is not found
    afterwards. *)
Theorem create_then_retrieve_fails :
  let C := Sample.collaborators in
  let fields := [("title", VStr "Water plants")] in
  let create := Sample.request (Some Sample.alice) [] fields in
  let get := Sample.request (Some Sample.alice) [] [] in
  TaskSerializer_run_validation Sample.db0 None false (request_data create)
  = inr (list_to_map fields)
  ∧ (as_view TaskViewSet.cls mixins.create (Sample.collection create)
       Sample.db0).2 = Sample.db0
  ∧ status_code
      (as_view TaskViewSet.cls mixins.create (Sample.collection create)
         Sample.db0).1
    = HTTP_500_INTERNAL_SERVER_ERROR
  ∧ next_id (task_seq Sample.db0) (task_id <$> tasks Sample.db0) = 5
  ∧ (as_view TaskViewSet.cls mixins.retrieve (Sample.detail get 5)
       Sample.db0).1
    = mkResponse HTTP_404_NOT_FOUND
        (BDetail "No Task matches the given query.").
Proof. intros C fields create get. split_and!; by vm_compute. Qed.

(** ** Update keeps the owner *)

Lemma filter_none {A} (P : A → Prop) `{∀ x, Decision (P x)} (l : list A) :
  (∀ x, x ∈ l → ¬ P x) → filter P l = [].
Proof.
  induction l as [|a l IH]; [done|]. intros Hnone.
  rewrite filter_cons_False by (apply Hnone; left).
  apply IH. intros x Hx. apply Hnone. by right.
Qed.

Lemma filter_pk_unique (rows : list Task) (t : Task) :
  NoDup (task_id <$> rows) → t ∈ rows →
  filter (λ r, task_id r = task_id t) rows = [t].
Proof.
  induction rows as [|r rows IH]; simpl; [by intros _ ?%elem_of_nil|].
  rewrite NoDup_cons. intros [Hfresh Hnd] [->|Hin]%elem_of_cons.
  - rewrite filter_cons_True by done. f_equal.
    apply filter_none. intros r' Hr Hid.
    apply Hfresh. rewrite <- Hid. by apply list_elem_of_fmap_2.
  - rewrite filter_cons_False; [by apply IH|].
    intros Hid. apply Hfresh. rewrite Hid. by apply list_elem_of_fmap_2.
Qed.

(** C6.  The owner of a task does not change under update.  When the owner
    of a stored task sends an update or a partial update for it, whatever
    the submitted fields, the row found under the task's id afterwards has
    the owner it had before. *)
Theorem update_keeps_owner `{Collaborators} (db : DB) (t : Task)
    (request : Request) (partial : bool) :
  pk_unique db →
  t ∈ tasks db →
  request_user request = Some (task_user t) →
  let view := mkView request {[ "pk" := task_id t ]} in
  let db' := (as_view TaskViewSet.cls (mixins.update partial) view db).2 in
  ∃ t', get_object_or_404 (tasks db') (task_id t) = Ok t'
        ∧ task_user t' = task_user t.
Proof.
  intros Hpk Ht Hcaller view db'.
  assert (db' = db) as ->.
  { apply dispatch_unchanged.
    by destruct (TaskViewSet_update_raises partial view db) as [e ->]. }
  exists t. split; [|done].
  unfold get_object_or_404. by rewrite filter_pk_unique.
Qed.

Lemma update_keeps_owner_witness :
  let C := Sample.collaborators in
  let request := Sample.request (Some Sample.alice) []
                   [("title", VStr "Write report"); ("user", VUser Sample.bob)] in
  let db' := (as_view TaskViewSet.cls (mixins.update false)
                (mkView request {[ "pk" := 1 ]}) Sample.db0).2 in
  ∃ t', get_object_or_404 (tasks db') 1 = Ok t' ∧ task_user t' = Sample.alice.
Proof.
  intros C request db'.
  apply (@update_keeps_owner C Sample.db0
           (mkTask 1 Sample.alice "Write report" (Some "quarterly numbers")
              (Some (mkdate 2024 5 1)) false) request false).
  - by_compute.
  - left.
  - reflexivity.
Defined.

(** ** List: filters and search *)

Lemma BooleanWidget_true : BooleanWidget "true" = Some true.
Proof. reflexivity. Qed.

(** C8.  List filtering.  The queryset that [list] serializes holds exactly
    the caller's tasks that match the [completed] flag and the [due_date]
    asked for and whose title or description contains every search term.
    With [completed=true] every task in it is a completed task of the
    caller, and a request with search terms gets a part of what the same
    request without them gets.  A [due_date] or [search] value that does not
    validate makes the filter backends raise their 400 error instead, and no
    queryset is computed. *)
Theorem list_filtering `{Collaborators} (view : View) (caller : Z) (db : DB) :
  let request := view_request view in
  request_user request = Some caller →
  (∀ e, filter_error request = Some e →
     GenericAPIView.filtered_queryset TaskViewSet.cls view db = (Raise e, db)
     ∧ status_code (handle_exception e) = HTTP_400_BAD_REQUEST)
  ∧ (filter_error request = None →
     ∃ queryset,
       GenericAPIView.filtered_queryset TaskViewSet.cls view db
       = (Ok queryset, db)
       ∧ (∀ t, t ∈ queryset ↔
               t ∈ tasks db ∧ task_user t = caller
               ∧ (∀ b, completed_param request = Some b → task_completed t = b)
               ∧ (∀ d, due_date_param request = DueOn d →
                       task_due_date t = Some d)
               ∧ (∀ term, term ∈ search_terms request → term_matches t term))
       ∧ (query_params request !! "completed" = Some "true" →
          ∀ t, t ∈ queryset → task_user t = caller ∧ task_completed t = true)
       ∧ (∀ view0 queryset0 db0,
            request_user (view_request view0) = Some caller →
            completed_param (view_request view0) = completed_param request →
            due_date_param (view_request view0) = due_date_param request →
            search_param (view_request view0) = inr [] →
            GenericAPIView.filtered_queryset TaskViewSet.cls view0 db
            = (Ok queryset0, db0) →
            ∀ t, t ∈ queryset → t ∈ queryset0)).
Proof.
  intros request Hcaller.
  pose proof (TaskViewSet_filtered_queryset view caller db Hcaller) as Hq.
  fold request in Hq. split.
  { intros e He. rewrite He in Hq. split; [done|].
    revert He. unfold filter_error.
    destruct (due_date_param request), (search_param request);
      by intros [= <-]. }
  intros Hvalid. rewrite Hvalid in Hq.
  destruct Hq as (queryset & Hrun & _ & Hin).
  exists queryset. split_and!; [done|done| |].
  - intros Hc t (_ & Hu & Hcompleted & _)%Hin. split; [done|].
    apply Hcompleted. unfold completed_param. by rewrite Hc.
  - intros view0 queryset0 db0 Hcaller0 Hc0 Hd0 Hs0 Hrun0 t
      (Ht & Hu & Hcompleted & Hdate & _)%Hin.
    pose proof (TaskViewSet_filtered_queryset view0 caller db Hcaller0) as Hq0.
    assert (filter_error (view_request view0) = None) as Hvalid0.
    { unfold filter_error in *. rewrite Hd0, Hs0.
      by destruct (due_date_param request). }
    rewrite Hvalid0 in Hq0. destruct Hq0 as (qs & Hq0 & _ & Hin0).
    rewrite Hq0 in Hrun0. injection Hrun0 as <- <-.
    apply Hin0. split; [done|]. split; [done|].
    unfold passes_filters, search_terms. rewrite Hc0, Hd0, Hs0.
    split; [done|]. split; [done|]. by intros term ?%elem_of_nil.
Qed.

Lemma list_filtering_witness :
  let C := Sample.collaborators in
  let request := Sample.request (Some Sample.alice)
                   [("completed", "true"); ("search", "report")] [] in
  ∃ queryset,
    GenericAPIView.filtered_queryset TaskViewSet.cls (Sample.collection request)
      Sample.db0 = (Ok queryset, Sample.db0)
    ∧ (task_id <$> queryset) = [4]
    ∧ ∀ t, t ∈ queryset → task_user t = Sample.alice ∧ task_completed t = true.
Proof.
  intros C request.
  destruct (@list_filtering C (Sample.collection request) Sample.alice
              Sample.db0) as (_ & Hvalid).
  - reflexivity.
  - destruct Hvalid as (queryset & Hrun & _ & Hcompleted & _);
      [by vm_compute|].
    exists queryset. split; [exact Hrun|]. split; [|by apply Hcompleted].
    assert (queryset = [mkTask 4 Sample.alice "Report expenses" None
                          (Some (mkdate 2024 5 1)) true]) as ->; [|done].
    assert (GenericAPIView.filtered_queryset TaskViewSet.cls
              (Sample.collection request) Sample.db0
            = (Ok [mkTask 4 Sample.alice "Report expenses" None
                     (Some (mkdate 2024 5 1)) true], Sample.db0)) as Hval
      by by vm_compute.
    rewrite Hval in Hrun. by injection Hrun as <-.
Defined.

(** * Further properties of the two views *)

(** ** Looking up one task *)

Lemma TaskViewSet_check_object_permissions `{Collaborators} view u obj :
  request_user (view_request view) = Some u →
  check_object_permissions (get_permissions (vs_mro TaskViewSet.cls))
    (view_request view) view obj = Ok tt.
Proof. intros Hu. by rewrite TaskViewSet_permission_classes. Qed.

Lemma get_object_or_404_found (qs : list Task) (t : Task) :
  NoDup (task_id <$> qs) → t ∈ qs → get_object_or_404 qs (task_id t) = Ok t.
Proof.
  intros Hnd Hin. unfold get_object_or_404. by rewrite filter_pk_unique.
Qed.

Lemma get_object_or_404_ok (qs : list Task) (pk : Z) (t : Task) :
  get_object_or_404 qs pk = Ok t → t ∈ qs ∧ task_id t = pk.
Proof.
  unfold get_object_or_404.
  destruct (filter (λ t, task_id t = pk) qs) as [|t' [|]] eqn:E; try done.
  intros [= ->].
  assert (t ∈ filter (λ t, task_id t = pk) qs) as Hin by (rewrite E; left).
  apply list_elem_of_filter in Hin as [? ?]. done.
Qed.

(** The owner finds an own task that passes the filters of the request. *)
Lemma TaskViewSet_get_object_found `{Collaborators} view t db :
  pk_unique db →
  t ∈ tasks db →
  request_user (view_request view) = Some (task_user t) →
  view_kwargs view !! "pk" = Some (task_id t) →
  filter_error (view_request view) = None →
  passes_filters (view_request view) t →
  GenericAPIView.get_object TaskViewSet.cls view db = (Ok t, db).
Proof.
  intros Hpk Ht Hu Hkw Hvalid Hpass. unfold GenericAPIView.get_object.
  pose proof (TaskViewSet_filtered_queryset view (task_user t) db Hu) as Hq.
  assert (∃ qs, GenericAPIView.filtered_queryset TaskViewSet.cls view db
                = (Ok qs, db) ∧ qs `sublist_of` tasks db ∧ t ∈ qs)
    as (qs & Hrun & Hsub & Hin).
  { rewrite Hvalid in Hq. destruct Hq as (qs & ? & ? & Hin).
    exists qs. split_and!; try done. by apply Hin. }
  erewrite bind_ok by done. rewrite Hkw.
  erewrite bind_ok.
  2: { unfold lift. f_equal. apply get_object_or_404_found; [|done].
       eapply sublist_NoDup; [exact Hpk|]. by apply fmap_sublist. }
  erewrite bind_ok; [done|].
  unfold lift. by erewrite TaskViewSet_check_object_permissions.
Qed.

(** What [get_object] returns is a stored task of the caller, with the
    requested key, that passes the filters. *)
Lemma TaskViewSet_get_object_ok `{Collaborators} view u obj db db' :
  request_user (view_request view) = Some u →
  GenericAPIView.get_object TaskViewSet.cls view db = (Ok obj, db') →
  db' = db ∧ obj ∈ tasks db ∧ task_user obj = u
  ∧ view_kwargs view !! "pk" = Some (task_id obj)
  ∧ passes_filters (view_request view) obj.
Proof.
  intros Hu. unfold GenericAPIView.get_object.
  pose proof (TaskViewSet_filtered_queryset view u db Hu) as Hq.
  destruct (filter_error (view_request view)) as [e|];
    [by erewrite bind_raise|].
  destruct Hq as (qs & Hrun & _ & Hin); erewrite bind_ok by done.
  destruct (view_kwargs view !! "pk") as [pk|]; [|done].
  unfold bind, lift, ret.
  destruct (get_object_or_404 qs pk) as [t|e] eqn:Hget; [|done].
  destruct (check_object_permissions _ _ _ _) as [[]|e]; [|done].
  intros [= -> <-].
  apply get_object_or_404_ok in Hget as [(? & ? & ?)%Hin <-]; done.
Qed.

(** The caller finds nothing under a key when none of the caller's rows
    with that key passes the filters. *)
Lemma TaskViewSet_get_object_none `{Collaborators} view u pk db :
  request_user (view_request view) = Some u →
  view_kwargs view !! "pk" = Some pk →
  (∀ t, t ∈ tasks db → task_id t = pk → task_user t = u →
        ¬ passes_filters (view_request view) t) →
  GenericAPIView.get_object TaskViewSet.cls view db
  = (Raise (lookup_failure (view_request view)), db).
Proof.
  intros Hu Hpk Hnone. unfold GenericAPIView.get_object, lookup_failure.
  pose proof (TaskViewSet_filtered_queryset view u db Hu) as Hq.
  destruct (filter_error (view_request view)) as [e|];
    [by erewrite bind_raise|].
  destruct Hq as (qs & Hq & _ & Hin).
  erewrite bind_ok by done; rewrite Hpk.
  apply bind_raise; unfold lift; f_equal.
  apply get_object_or_404_none; intros t (? & ? & ?)%Hin ?.
  by eapply Hnone.
Qed.

Lemma detail_action_raise `{Collaborators} action view u e db :
  action ∈ detail_actions →
  request_user (view_request view) = Some u →
  GenericAPIView.get_object TaskViewSet.cls view db = (Raise e, db) →
  as_view TaskViewSet.cls action view db = (handle_exception e, db).
Proof.
  intros Hact Hu Hg. unfold as_view.
  apply dispatch_raise; [by eapply TaskViewSet_check_permissions|].
  unfold detail_actions in Hact.
  repeat (apply elem_of_cons in Hact as [->|Hact]);
    [..|by apply elem_of_nil in Hact].
  - unfold mixins.retrieve. by apply bind_raise.
  - unfold mixins.update. by apply bind_raise.
  - unfold mixins.update. by apply bind_raise.
  - unfold mixins.destroy. by apply bind_raise.
Qed.

(** ** Deleting *)

Lemma length_filter_pk (rows : list Task) (t : Task) :
  NoDup (task_id <$> rows) → t ∈ rows →
  List.length rows = S (List.length (filter (λ r, task_id r ≠ task_id t) rows)).
Proof.
  intros Hnd Hin.
  rewrite <- (Permutation_length
                (filter_app_complement (λ r, task_id r = task_id t) rows)).
  by rewrite length_app, filter_pk_unique.
Qed.

Lemma TaskViewSet_destroy_owned `{Collaborators} (db : DB) (t : Task)
    (request : Request) :
  pk_unique db →
  t ∈ tasks db →
  request_user request = Some (task_user t) →
  filter_error request = None →
  passes_filters request t →
  as_view TaskViewSet.cls mixins.destroy
    (mkView request {[ "pk" := task_id t ]}) db
  = (mkResponse HTTP_204_NO_CONTENT BEmpty,
     set_tasks (filter (λ r, task_id r ≠ task_id t) (tasks db)) db).
Proof.
  intros Hpk Ht Hu Hvalid Hpass. unfold as_view.
  apply dispatch_ok; [by eapply TaskViewSet_check_permissions|].
  unfold mixins.destroy.
  erewrite bind_ok.
  2: { by apply TaskViewSet_get_object_found. }
  reflexivity.
Qed.

(** X2.  The owner deletes an own task.  When the filter parameters of the
    request are well formed and the task passes them, the answer is 204 with
    an empty body and the row is deleted: the task is gone, every other row
    stays, in the stored order, the table is one row shorter and the users
    are untouched. *)
Theorem destroy_own_task `{Collaborators} (db : DB) (t : Task)
    (request : Request) :
  pk_unique db →
  t ∈ tasks db →
  request_user request = Some (task_user t) →
  filter_error request = None →
  passes_filters request t →
  let after := filter (λ r, task_id r ≠ task_id t) (tasks db) in
  as_view TaskViewSet.cls mixins.destroy
    (mkView request {[ "pk" := task_id t ]}) db
  = (mkResponse HTTP_204_NO_CONTENT BEmpty, set_tasks after db)
  ∧ (∀ r, r ∈ after ↔ r ∈ tasks db ∧ r ≠ t)
  ∧ after `sublist_of` tasks db
  ∧ List.length (tasks db) = S (List.length after).
Proof.
  intros Hpk Ht Hu Hvalid Hpass after. split_and!.
  - by apply TaskViewSet_destroy_owned.
  - intros r. unfold after. rewrite list_elem_of_filter.
    split.
    + intros [Hne Hin]. split; [done|]. by intros ->.
    + intros [Hin Hne]. split; [|done].
      intros Hid. apply Hne. by apply (NoDup_fmap_eq task_id (tasks db)).
  - apply sublist_filter.
  - by apply length_filter_pk.
Qed.

Lemma destroy_own_task_witness :
  let C := Sample.collaborators in
  let request := Sample.request (Some Sample.bob) [("completed", "true")] [] in
  as_view TaskViewSet.cls mixins.destroy (mkView request {[ "pk" := 2 ]})
    Sample.db0
  = (mkResponse HTTP_204_NO_CONTENT BEmpty,
     set_tasks (filter (λ r, task_id r ≠ 2) (tasks Sample.db0)) Sample.db0).
Proof.
  intros C request.
  apply (@destroy_own_task C Sample.db0
           (mkTask 2 Sample.bob "Buy milk" None None true) request).
  - by_compute.
  - right. left.
  - reflexivity.
  - by vm_compute.
  - split_and!.
    + intros b [= <-]. reflexivity.
    + by vm_compute.
    + by intros term ?%elem_of_nil.
Defined.

Lemma lookup_failure_status `{Collaborators} (request : Request) :
  status_code (handle_exception (lookup_failure request))
  = match filter_error request with
    | Some _ => HTTP_400_BAD_REQUEST
    | None => HTTP_404_NOT_FOUND
    end.
Proof.
  unfold lookup_failure, filter_error.
  by destruct (due_date_param request), (search_param request).
Qed.

(** X3.  Deleting twice.  After the owner has deleted a task, no detail
    action on its id changes anything any more, whoever the authenticated
    caller is: the answer is 404 when the filter parameters of that request
    are well formed and the 400 of the filter backends otherwise, so the
    deletion does not succeed a second time. *)
Theorem destroy_is_not_repeatable `{Collaborators} (db : DB) (t : Task)
    (request again : Request) (u : Z)
    (action : ViewSetClass → View → M Response) :
  pk_unique db →
  t ∈ tasks db →
  request_user request = Some (task_user t) →
  filter_error request = None →
  passes_filters request t →
  request_user again = Some u →
  action ∈ detail_actions →
  let db1 := (as_view TaskViewSet.cls mixins.destroy
                (mkView request {[ "pk" := task_id t ]}) db).2 in
  let outcome :=
    as_view TaskViewSet.cls action (mkView again {[ "pk" := task_id t ]}) db1 in
  outcome.2 = db1
  ∧ status_code outcome.1
    = match filter_error again with
      | Some _ => HTTP_400_BAD_REQUEST
      | None => HTTP_404_NOT_FOUND
      end.
Proof.
  intros Hpk Ht Hu Hvalid Hpass Hagain Hact db1 outcome.
  assert (outcome = (handle_exception (lookup_failure again), db1)) as ->.
  { unfold outcome, db1.
    rewrite (TaskViewSet_destroy_owned db t request) by done. cbn [snd].
    apply (detail_action_not_owned action
             (mkView again {[ "pk" := task_id t ]}) u (task_id t));
      [done | done | apply lookup_singleton_eq |].
    simpl. intros t' [Hid _]%list_elem_of_filter. done. }
  split; [done|]. apply lookup_failure_status.
Qed.

Lemma destroy_is_not_repeatable_witness :
  let C := Sample.collaborators in
  let request := Sample.request (Some Sample.bob) [] [] in
  let view := mkView request {[ "pk" := 2 ]} in
  let db1 := (as_view TaskViewSet.cls mixins.destroy view Sample.db0).2 in
  (as_view TaskViewSet.cls mixins.destroy view db1).2 = db1
  ∧ status_code (as_view TaskViewSet.cls mixins.destroy view db1).1
    = HTTP_404_NOT_FOUND.
Proof.
  intros C request view db1.
  apply (@destroy_is_not_repeatable C Sample.db0
           (mkTask 2 Sample.bob "Buy milk" None None true) request request
           Sample.bob mixins.destroy).
  - by_compute.
  - right. left.
  - reflexivity.
  - by vm_compute.
  - split_and!; [by intros b [=] | by vm_compute
                | by intros term ?%elem_of_nil].
  - reflexivity.
  - do 3 right. left.
Defined.

(** ** Filters on the detail routes *)

(** X4.  The filter backends also run when one task is looked up.  A detail
    action of the owner on an own task, with well-formed filter parameters
    that the task does not pass (a completed flag or due date that differs,
    a search term that does not occur), is answered 404, and nothing
    changes: in particular the task is not deleted. *)
Theorem detail_actions_apply_filters `{Collaborators} (db : DB) (t : Task)
    (request : Request) (action : ViewSetClass → View → M Response) :
  pk_unique db →
  t ∈ tasks db →
  request_user request = Some (task_user t) →
  filter_error request = None →
  ¬ passes_filters request t →
  action ∈ detail_actions →
  let outcome :=
    as_view TaskViewSet.cls action (mkView request {[ "pk" := task_id t ]}) db in
  status_code outcome.1 = HTTP_404_NOT_FOUND ∧ outcome.2 = db.
Proof.
  intros Hpk Ht Hu Hvalid Hfail Hact outcome.
  assert (outcome = (handle_exception (lookup_failure request), db)) as ->.
  { unfold outcome.
    apply (detail_action_raise action
             (mkView request {[ "pk" := task_id t ]}) (task_user t));
      [done | done |].
    apply (TaskViewSet_get_object_none
             (mkView request {[ "pk" := task_id t ]}) (task_user t) (task_id t));
      [done | apply lookup_singleton_eq |].
    simpl. intros t' Ht' Hid _.
    by rewrite (NoDup_fmap_eq task_id (tasks db) t' t). }
  split; [|done]. simpl. by rewrite lookup_failure_status, Hvalid.
Qed.

Lemma detail_actions_apply_filters_witness :
  let C := Sample.collaborators in
  let request := Sample.request (Some Sample.alice) [("completed", "true")] [] in
  let outcome :=
    as_view TaskViewSet.cls mixins.destroy (mkView request {[ "pk" := 1 ]})
      Sample.db0 in
  status_code outcome.1 = HTTP_404_NOT_FOUND ∧ outcome.2 = Sample.db0.
Proof.
  intros C request.
  apply (@detail_actions_apply_filters C Sample.db0
           (mkTask 1 Sample.alice "Write report" (Some "quarterly numbers")
              (Some (mkdate 2024 5 1)) false) request mixins.destroy).
  - by_compute.
  - left.
  - reflexivity.
  - by vm_compute.
  - intros (Hcompleted & _). by specialize (Hcompleted true eq_refl).
  - do 3 right. left.
Defined.

Lemma filter_error_due_date `{Collaborators} (request : Request) :
  due_date_param request = DueInvalid →
  filter_error request
  = Some (ValidationError {[ "due_date" := ["Enter a valid date."] ]}).
Proof. intros Hdue. unfold filter_error. by rewrite Hdue. Qed.

(** X5.  A malformed [due_date] parameter.  For an authenticated caller,
    list and every detail action answer a [due_date] parameter that is not
    a date with 400 and the error mapping of that field, before any row is
    looked up; nothing changes, even when the caller asked to delete an own
    task. *)
Theorem malformed_due_date_is_rejected `{Collaborators} (view : View) (u : Z)
    (db : DB) (action : ViewSetClass → View → M Response) :
  request_user (view_request view) = Some u →
  due_date_param (view_request view) = DueInvalid →
  action ∈ queryset_actions →
  as_view TaskViewSet.cls action view db
  = (mkResponse HTTP_400_BAD_REQUEST
       (BErrors {[ "due_date" := ["Enter a valid date."] ]}), db).
Proof.
  intros Hu Hdue%filter_error_due_date Hact.
  pose proof (TaskViewSet_filtered_queryset view u db Hu) as Hq.
  rewrite Hdue in Hq.
  apply elem_of_cons in Hact as [->|Hact].
  - unfold as_view.
    erewrite dispatch_raise;
      [|by eapply TaskViewSet_check_permissions
       |by apply TaskViewSet_list_raises with (u := u)].
    by rewrite Hdue.
  - apply (detail_action_raise action view u
             (ValidationError {[ "due_date" := ["Enter a valid date."] ]}));
      [done | done |].
    unfold GenericAPIView.get_object. by erewrite bind_raise.
Qed.

Lemma malformed_due_date_is_rejected_witness :
  let C := Sample.collaborators in
  let request := Sample.request (Some Sample.alice) [("due_date", "tomorrow")] [] in
  as_view TaskViewSet.cls mixins.destroy (mkView request {[ "pk" := 1 ]})
    Sample.db0
  = (mkResponse HTTP_400_BAD_REQUEST
       (BErrors {[ "due_date" := ["Enter a valid date."] ]}), Sample.db0).
Proof.
  intros C request.
  apply (@malformed_due_date_is_rejected C (mkView request {[ "pk" := 1 ]})
           Sample.alice Sample.db0 mixins.destroy).
  - reflexivity.
  - by vm_compute.
  - do 4 right. left.
Defined.

(** ** Who may call, and what is written *)

(** X1.  Every routed action of the task view set rejects an anonymous
    caller before the handler runs: the response is the one for missing
    credentials (401 or 403, by the authentication scheme), and the database
    is untouched. *)
Theorem anonymous_caller_is_rejected `{Collaborators} (view : View) (db : DB)
    (action : ViewSetClass → View → M Response) :
  request_user (view_request view) = None →
  as_view TaskViewSet.cls action view db
  = (handle_exception NotAuthenticated, db)
  ∧ status_code (handle_exception NotAuthenticated)
    ∈ [HTTP_401_UNAUTHORIZED; HTTP_403_FORBIDDEN].
Proof.
  intros Hanon. split.
  - unfold as_view, dispatch, bind, lift.
    rewrite TaskViewSet_permission_classes. simpl. rewrite Hanon.
    rewrite bool_decide_false by (by intros [? ?]).
    unfold permission_denied. by rewrite Hanon.
  - simpl. destruct authenticate_header; [left | right; left].
Qed.

Lemma anonymous_caller_is_rejected_witness :
  let C := Sample.collaborators in
  let request := Sample.request None [] [] in
  as_view TaskViewSet.cls mixins.destroy (mkView request {[ "pk" := 1 ]})
    Sample.db0
  = (mkResponse HTTP_401_UNAUTHORIZED
       (BDetail "Authentication credentials were not provided."), Sample.db0).
Proof.
  intros C request.
  apply (@anonymous_caller_is_rejected C (mkView request {[ "pk" := 1 ]})
           Sample.db0 mixins.destroy).
  reflexivity.
Defined.

Lemma TaskViewSet_list_raises_always `{Collaborators} view db :
  ∃ e, mixins.list TaskViewSet.cls view db = (Raise e, db).
Proof.
  destruct (request_user (view_request view)) as [u|] eqn:Hu.
  - rewrite (TaskViewSet_list_raises view u db Hu). eauto.
  - unfold mixins.list, GenericAPIView.filtered_queryset, bind. simpl.
    unfold TaskViewSet.get_queryset. rewrite Hu. eauto.
Qed.

Lemma serializing_action_raises `{Collaborators} action view db :
  action ∈ serializing_actions →
  ∃ e, action TaskViewSet.cls view db = (Raise e, db).
Proof.
  intros Hact. unfold serializing_actions in Hact.
  repeat (apply elem_of_cons in Hact as [->|Hact]);
    [..|by apply elem_of_nil in Hact].
  - rewrite TaskViewSet_create_raises. eauto.
  - apply TaskViewSet_list_raises_always.
  - apply TaskViewSet_retrieve_raises.
  - apply TaskViewSet_update_raises.
  - apply TaskViewSet_update_raises.
Qed.

Lemma dispatch_of_raise `{Collaborators} {Obj}
    (mro : list (gmap string (attr Obj))) (handler : View → M Response)
    view db e :
  handler view db = (Raise e, db) →
  ∃ e', dispatch mro handler view db = (handle_exception e', db).
Proof.
  intros Hrun. unfold dispatch, bind, lift.
  destruct (check_permissions _ _ _) as [[]|e']; [|eauto].
  rewrite Hrun. eauto.
Qed.

Lemma handle_exception_status `{Collaborators} (e : exn) :
  (400 ≤ status_code (handle_exception e) < 600)%Z.
Proof.
  destruct e; simpl; try (by vm_compute).
  destruct authenticate_header; by vm_compute.
Qed.

(** X7.  Create, list, retrieve, update and partial update never write and
    never succeed: whatever the request and the stored state, each of them
    ends in an exception, is answered with an error status, and leaves the
    database exactly as it was.  Deleting is the only action of the task
    view set that can change a row. *)
Theorem serializing_actions_never_write `{Collaborators} (view : View)
    (db : DB) (action : ViewSetClass → View → M Response) :
  action ∈ serializing_actions →
  ∃ e, as_view TaskViewSet.cls action view db = (handle_exception e, db)
       ∧ (400 ≤ status_code (handle_exception e) < 600)%Z.
Proof.
  intros Hact.
  destruct (serializing_action_raises action view db Hact) as [e He].
  destruct (dispatch_of_raise (vs_mro TaskViewSet.cls)
              (action TaskViewSet.cls) view db e He) as [e' He'].
  exists e'. split; [exact He' | apply handle_exception_status].
Qed.

Lemma serializing_actions_never_write_witness :
  let C := Sample.collaborators in
  let request := Sample.request (Some Sample.alice) []
                   [("title", VStr "Renamed"); ("completed", VBool true)] in
  ∃ e, as_view TaskViewSet.cls (mixins.update true)
         (mkView request {[ "pk" := 1 ]}) Sample.db0
       = (handle_exception e, Sample.db0)
       ∧ (400 ≤ status_code (handle_exception e) < 600)%Z.
Proof.
  intros C request.
  apply (@serializing_actions_never_write C (mkView request {[ "pk" := 1 ]})
           Sample.db0 (mixins.update true)).
  do 4 right. left.
Defined.

(** What a delete request does to the database: nothing, or it removes the
    rows under the key of a task the caller owns. *)
Lemma TaskViewSet_destroy_outcome `{Collaborators} view db :
  let db' := (as_view TaskViewSet.cls mixins.destroy view db).2 in
  db' = db
  ∨ ∃ obj, request_user (view_request view) = Some (task_user obj)
           ∧ obj ∈ tasks db
           ∧ db' = set_tasks
                     (filter (λ r, task_id r ≠ task_id obj) (tasks db)) db.
Proof.
  intros db'. unfold db'. clear db'.
  destruct (request_user (view_request view)) as [u|] eqn:Hu.
  2: { left. unfold as_view, dispatch, bind, lift.
       rewrite TaskViewSet_permission_classes. simpl. rewrite Hu.
       rewrite bool_decide_false by (by intros [? ?]).
       unfold permission_denied. by rewrite Hu. }
  destruct (GenericAPIView.get_object TaskViewSet.cls view db)
    as [[obj|e] db1] eqn:Hget.
  - apply (TaskViewSet_get_object_ok view u) in Hget as Hobj; [|done].
    destruct Hobj as (-> & Hin & Howner & _).
    right. exists obj. rewrite Howner. split; [done|]. split; [done|].
    unfold as_view. erewrite dispatch_ok;
      [|by eapply TaskViewSet_check_permissions|].
    2: { unfold mixins.destroy. erewrite bind_ok by done. reflexivity. }
    done.
  - left. pose proof (TaskViewSet_get_object_reads view db) as Hread.
    rewrite Hget in Hread. simpl in Hread. subst db1.
    unfold as_view. erewrite dispatch_raise;
      [|by eapply TaskViewSet_check_permissions|].
    2: { unfold mixins.destroy. by erewrite bind_raise. }
    done.
Qed.

Lemma task_action_outcome `{Collaborators} action view db :
  action ∈ task_actions →
  let db' := (as_view TaskViewSet.cls action view db).2 in
  db' = db
  ∨ ∃ obj, request_user (view_request view) = Some (task_user obj)
           ∧ obj ∈ tasks db
           ∧ db' = set_tasks
                     (filter (λ r, task_id r ≠ task_id obj) (tasks db)) db.
Proof.
  unfold task_actions. intros [Hact|Hact]%elem_of_app.
  - left.
    destruct (serializing_action_raises action view db Hact) as [e He].
    by apply dispatch_unchanged; rewrite He.
  - apply list_elem_of_singleton in Hact as ->.
    apply TaskViewSet_destroy_outcome.
Qed.

Lemma filter_filter_elem {A} (P Q : A → Prop) `{∀ x, Decision (P x)}
    `{∀ x, Decision (Q x)} (l : list A) :
  (∀ x, x ∈ l → P x → Q x) → filter P (filter Q l) = filter P l.
Proof.
  induction l as [|a l IH]; [done|]. intros HPQ.
  assert (filter P (filter Q l) = filter P l) as IH'
    by (apply IH; intros x Hx; apply HPQ; by right).
  destruct (decide (Q a)) as [Hq|Hq].
  - rewrite (filter_cons_True Q) by done.
    rewrite !(filter_cons P). by rewrite IH'.
  - rewrite (filter_cons_False Q) by done. rewrite IH'.
    rewrite (filter_cons_False P); [done|].
    intros Hp. apply Hq, HPQ; [left | done].
Qed.

(** X6.  No action reaches the rows of another user.  Whatever a caller
    sends to whatever action, the users table is unchanged, the stored tasks
    afterwards are a part of the tasks before, in the same order, every task
    that the caller does not own is still stored, and the queryset of every
    other caller is what it was. *)
Theorem actions_leave_other_users_alone `{Collaborators} (db : DB)
    (view : View) (action : ViewSetClass → View → M Response) :
  pk_unique db →
  action ∈ task_actions →
  let db' := (as_view TaskViewSet.cls action view db).2 in
  users db' = users db
  ∧ tasks db' `sublist_of` tasks db
  ∧ (∀ t, t ∈ tasks db →
          request_user (view_request view) ≠ Some (task_user t) →
          t ∈ tasks db')
  ∧ (∀ other,
       request_user (view_request other) ≠ request_user (view_request view) →
       (GenericAPIView.filtered_queryset TaskViewSet.cls other db').1
       = (GenericAPIView.filtered_queryset TaskViewSet.cls other db).1).
Proof.
  intros Hpk Hact db'.
  destruct (task_action_outcome action view db Hact)
    as [Hsame|(obj & Hu & Hobj & Hdel)]; fold db' in Hsame || fold db' in Hdel.
  { rewrite Hsame. by split_and!. }
  rewrite Hdel. simpl. split_and!; [done | apply sublist_filter | |].
  - intros t Ht Hother. apply list_elem_of_filter. split; [|done].
    intros Hid. apply Hother. rewrite Hu. do 2 f_equal.
    by apply (NoDup_fmap_eq task_id (tasks db)).
  - intros other Hother.
    unfold GenericAPIView.filtered_queryset, bind, lift. simpl.
    unfold TaskViewSet.get_queryset.
    destruct (request_user (view_request other)) as [b|]; [|done].
    unfold bind, get_db, ret. simpl.
    rewrite filter_filter_elem; [done|].
    intros x Hx Hb Hid. apply Hother. rewrite Hu, <- Hb. do 2 f_equal.
    by apply (NoDup_fmap_eq task_id (tasks db)).
Qed.

Lemma actions_leave_other_users_alone_witness :
  let C := Sample.collaborators in
  let view := mkView (Sample.request (Some Sample.alice) [] []) {[ "pk" := 3 ]} in
  let bob := Sample.collection (Sample.request (Some Sample.bob) [] []) in
  let db' := (as_view TaskViewSet.cls mixins.destroy view Sample.db0).2 in
  (GenericAPIView.filtered_queryset TaskViewSet.cls bob db').1
  = (GenericAPIView.filtered_queryset TaskViewSet.cls bob Sample.db0).1.
Proof.
  intros C view bob db'.
  destruct (@actions_leave_other_users_alone C Sample.db0 view mixins.destroy)
    as (_ & _ & _ & Hother).
  - by_compute.
  - do 5 right. left.
  - apply Hother. by vm_compute.
Defined.

(** X9.  The primary key constraint is kept.  If no two stored tasks share
    an id, this still holds after any routed action of the task view set and
    after [perform_create], whatever id the validated data may carry. *)
Theorem primary_keys_stay_unique `{Collaborators} (db : DB) (view : View) :
  pk_unique db →
  (∀ action, action ∈ task_actions →
     pk_unique (as_view TaskViewSet.cls action view db).2)
  ∧ (∀ validated_data,
       pk_unique (TaskViewSet.perform_create view
                    (mkSerializer TaskSerializer None validated_data) db).2).
Proof.
  intros Hpk. split.
  - intros action Hact.
    destruct (task_action_outcome action view db Hact)
      as [->|(obj & _ & _ & ->)]; [done|].
    unfold pk_unique in *. simpl.
    eapply sublist_NoDup; [exact Hpk|]. apply fmap_sublist, sublist_filter.
  - intros validated_data.
    assert (∀ kw, pk_unique (Task_objects_create kw db).2) as Hcreate.
    { intros kw. destruct (Task_objects_create kw db) as [r db'] eqn:E.
      by eapply Task_objects_create_pk_unique. }
    apply Hcreate.
Qed.

Lemma primary_keys_stay_unique_witness :
  let C := Sample.collaborators in
  let view := Sample.collection (Sample.request (Some Sample.alice) [] []) in
  pk_unique (TaskViewSet.perform_create view
               (mkSerializer TaskSerializer None
                  (list_to_map [("title", VStr "Water plants"); ("id", VInt 9)]))
               Sample.db0).2.
Proof.
  intros C view.
  apply (@primary_keys_stay_unique C Sample.db0 view).
  by_compute.
Defined.

(** ** Query parameters the class does not declare *)

(** X8.  Only [completed], [due_date] and [search] are read.  Two requests
    of the same caller whose query parameters agree on these three names
    get the same queryset (or the same error) from the same stored tasks,
    whatever other parameters they carry. *)
Theorem undeclared_parameters_are_ignored `{Collaborators} (view1 view2 : View)
    (db : DB) :
  request_user (view_request view1) = request_user (view_request view2) →
  (∀ name, name ∈ declared_parameters →
     query_params (view_request view1) !! name
     = query_params (view_request view2) !! name) →
  (GenericAPIView.filtered_queryset TaskViewSet.cls view1 db).1
  = (GenericAPIView.filtered_queryset TaskViewSet.cls view2 db).1.
Proof.
  intros Huser Hparams.
  assert (query_params (view_request view1) !! "completed"
          = query_params (view_request view2) !! "completed") as Hc
    by (apply Hparams; left).
  assert (query_params (view_request view1) !! "due_date"
          = query_params (view_request view2) !! "due_date") as Hd
    by (apply Hparams; right; left).
  assert (query_params (view_request view1) !! "search"
          = query_params (view_request view2) !! "search") as Hs
    by (apply Hparams; do 2 right; left).
  assert (∀ qs, filter_queryset (vs_mro TaskViewSet.cls) (view_request view1) qs
                = filter_queryset (vs_mro TaskViewSet.cls) (view_request view2) qs)
    as Hfilter.
  { intros qs. unfold filter_queryset. rewrite TaskViewSet_filter_backends.
    cbn [apply_backends]. unfold filter_backend_queryset.
    rewrite TaskViewSet_filterset_fields, TaskViewSet_search_fields.
    rewrite !filterset_clean_TaskViewSet. by rewrite Hc, Hd, Hs. }
  unfold GenericAPIView.filtered_queryset, bind, lift. simpl.
  unfold TaskViewSet.get_queryset. rewrite Huser.
  destruct (request_user (view_request view2)) as [u|]; [|done].
  unfold bind, get_db, ret. by rewrite Hfilter.
Qed.

Lemma undeclared_parameters_are_ignored_witness :
  let C := Sample.collaborators in
  let plain := Sample.request (Some Sample.alice) [("completed", "true")] [] in
  let noisy := Sample.request (Some Sample.alice)
                 [("completed", "true"); ("user", "2"); ("title", "Buy milk")] [] in
  (GenericAPIView.filtered_queryset TaskViewSet.cls (Sample.collection noisy)
     Sample.db0).1
  = (GenericAPIView.filtered_queryset TaskViewSet.cls (Sample.collection plain)
       Sample.db0).1.
Proof.
  intros C plain noisy.
  apply (@undeclared_parameters_are_ignored C (Sample.collection noisy)
           (Sample.collection plain) Sample.db0).
  - reflexivity.
  - intros name Hname. unfold declared_parameters in Hname.
    repeat (apply elem_of_cons in Hname as [->|Hname]);
      [by vm_compute..|by apply elem_of_nil in Hname].
Defined.

(** ** The hooks without an authenticated caller *)

(** X10.  The two overridden hooks rely on the permission check that runs
    before them.  Called for an anonymous request, [get_queryset] raises
    instead of returning rows, and [perform_create] raises instead of
    storing a task without an owner; neither changes the database. *)
Theorem hooks_raise_for_anonymous `{Collaborators} (view : View) (db : DB)
    (validated_data : dict) :
  request_user (view_request view) = None →
  TaskViewSet.get_queryset view db = (Raise (ModelError "TypeError"), db)
  ∧ ∃ e, TaskViewSet.perform_create view
           (mkSerializer TaskSerializer None validated_data) db
         = (Raise e, db).
Proof.
  intros Hanon. split.
  - unfold TaskViewSet.get_queryset. by rewrite Hanon.
  - assert (TaskViewSet.perform_create view
              (mkSerializer TaskSerializer None validated_data) db
            = Task_objects_create
                ({[ "user" := VAnonymous ]} ∪ validated_data) db) as ->.
    { unfold TaskViewSet.perform_create, save. simpl. by rewrite Hanon. }
    destruct (Task_objects_create _ db) as [[t|e] db'] eqn:E.
    + apply Task_objects_create_ok in E as (Huser & _).
      rewrite (lookup_union_Some_l _ _ _ VAnonymous) in Huser; [done|].
      apply lookup_singleton_eq.
    + apply Task_objects_create_raise in E as ->. eauto.
Qed.

Lemma hooks_raise_for_anonymous_witness :
  let C := Sample.collaborators in
  let view := Sample.collection
                (Sample.request None [] [("title", VStr "Water plants")]) in
  TaskViewSet.get_queryset view Sample.db0
  = (Raise (ModelError "TypeError"), Sample.db0).
Proof.
  intros C view.
  apply (@hooks_raise_for_anonymous C view Sample.db0
           (list_to_map [("title", VStr "Water plants")])).
  reflexivity.
Defined.

(** ** Registration is open *)




(** ** Creating and finding *)

(** X12.  An owner submitted with the fields has no effect at all.  For
    every serializer, [perform_create] does exactly the same, result and
    database, whether or not the validated data bind [user], and whatever
    they bind it to. *)
Theorem submitted_owner_is_ignored (view : View) (cls : SerializerClass Task)
    (instance : option Task) (validated_data : dict) (submitted : value)
    (db : DB) :
  TaskViewSet.perform_create view
    (mkSerializer cls instance (<[ "user" := submitted ]> validated_data)) db
  = TaskViewSet.perform_create view
      (mkSerializer cls instance validated_data) db.
Proof.
  unfold TaskViewSet.perform_create, save. simpl.
  set (caller := from_option VUser VAnonymous (request_user (view_request view))).
  assert (({[ "user" := caller ]} : dict) ∪ <[ "user" := submitted ]> validated_data
          = {[ "user" := caller ]} ∪ validated_data) as ->; [|done].
  apply map_eq. intros name. rewrite !lookup_union.
  destruct (decide (name = "user")) as [->|Hne].
  - rewrite lookup_singleton_eq, lookup_insert_eq.
    by destruct (validated_data !! "user").
  - by rewrite lookup_insert_ne.
Qed.

Lemma Task_init_getattr pk kw t name v :
  Task_init pk kw = Ok t →
  name ≠ "id" →
  kw !! name = Some v →
  Task_getattr name t = Some v.
Proof.
  unfold Task_init. case_decide as Hdom; [|done].
  intros (u & Hu & E)%result_bind_ok.
  apply result_bind_ok in E as (ti & Hti & E).
  apply result_bind_ok in E as (de & Hde & E).
  apply result_bind_ok in E as (du & Hdu & E).
  apply result_bind_ok in E as (co & Hco & E).
  injection E as <-. intros Hid Hname.
  assert (name ∈ Task_fields) as Hfield.
  { apply (elem_of_list_to_set (C := gset string)), Hdom, elem_of_dom. eauto. }
  unfold Task_fields in Hfield. unfold kwarg in *.
  repeat (apply elem_of_cons in Hfield as [->|Hfield]);
    [done|..|by apply elem_of_nil in Hfield].
  - rewrite Hname in Hu. by destruct v; simplify_eq/=.
  - rewrite Hname in Hti. by destruct v; simplify_eq/=.
  - rewrite Hname in Hde. by destruct v; simplify_eq/=.
  - rewrite Hname in Hdu. by destruct v; simplify_eq/=.
  - rewrite Hname in Hco. by destruct v; simplify_eq/=.
Qed.

Lemma Task_init_completed_default pk kw t :
  Task_init pk kw = Ok t → kw !! "completed" = None → task_completed t = false.
Proof.
  unfold Task_init. case_decide as Hdom; [|done].
  intros (u & Hu & E)%result_bind_ok.
  apply result_bind_ok in E as (ti & Hti & E).
  apply result_bind_ok in E as (de & Hde & E).
  apply result_bind_ok in E as (du & Hdu & E).
  apply result_bind_ok in E as (co & Hco & E).
  injection E as <-. intros Hnone. simpl.
  unfold kwarg in Hco. rewrite Hnone in Hco. by simplify_eq.
Qed.

(** [perform_create] succeeds on fields the constructor accepts, with the
    next free id. *)
Lemma TaskViewSet_perform_create_succeeds `{Collaborators} view caller
    validated_data db :
  request_user (view_request view) = Some caller →
  valid_task_fields validated_data →
  ∃ task,
    TaskViewSet.perform_create view
      (mkSerializer TaskSerializer None validated_data) db
    = (Ok task, insert_task task db)
    ∧ Task_init (next_id (task_seq db) (task_id <$> tasks db))
        ({[ "user" := VUser caller ]} ∪ validated_data) = Ok task.
Proof.
  intros Hcaller (Hdom & Hti & Hde & Hdu & Hco).
  assert (validated_data !! "id" = None) as Hid.
  { apply not_elem_of_dom. intros Hin%Hdom. revert Hin. by_compute. }
  assert (∃ task, Task_init (next_id (task_seq db) (task_id <$> tasks db))
                    ({[ "user" := VUser caller ]} ∪ validated_data) = Ok task)
    as [task Hinit].
  { unfold Task_init. rewrite decide_True.
    2: { rewrite dom_union, dom_singleton. intros x.
         rewrite elem_of_union, elem_of_singleton.
         intros [->|Hin%Hdom]; [by_compute|]. revert Hin.
         unfold writable_columns, Task_fields.
         rewrite elem_of_list_to_set, !elem_of_union, !elem_of_singleton,
           !elem_of_cons.
         intuition. }
    unfold kwarg at 1. rewrite perform_create_user. simpl.
    unfold kwarg. rewrite !perform_create_kwargs by done.
    fold (kwarg validated_data "title" as_str (Ok "")).
    fold (kwarg validated_data "description" as_opt_str (Ok None)).
    fold (kwarg validated_data "due_date" as_opt_date (Ok None)).
    fold (kwarg validated_data "completed" as_bool (Ok false)).
    destruct (kwarg_accepts as_str validated_data "title" "" Hti) as [? ->].
    destruct (kwarg_accepts as_opt_str validated_data "description" None Hde)
      as [? ->].
    destruct (kwarg_accepts as_opt_date validated_data "due_date" None Hdu)
      as [? ->].
    destruct (kwarg_accepts as_bool validated_data "completed" false Hco)
      as [? ->].
    simpl. eauto. }
  exists task. split; [|done].
  unfold TaskViewSet.perform_create, save. simpl. rewrite Hcaller. simpl.
  unfold ModelSerializer_create, Task_objects_create.
  rewrite perform_create_kwargs, Hid by done. simpl.
  by rewrite Hinit.
Qed.

(** X13.  Create, then look up.  When [perform_create] has stored the
    fields of a caller, the lookup behind the detail routes, run for the
    same caller on the new id with no restricting filter, finds exactly the
    task that was created; that task carries every submitted field, and is
    not completed when the fields did not say so. *)
Theorem created_task_is_found `{Collaborators} (view : View) (caller : Z)
    (validated_data : dict) (db : DB) (request : Request) :
  pk_unique db →
  request_user (view_request view) = Some caller →
  valid_task_fields validated_data →
  request_user request = Some caller →
  no_filters request →
  ∃ task db',
    TaskViewSet.perform_create view
      (mkSerializer TaskSerializer None validated_data) db = (Ok task, db')
    ∧ GenericAPIView.get_object TaskViewSet.cls
        (mkView request {[ "pk" := task_id task ]}) db' = (Ok task, db')
    ∧ (∀ name v, name ≠ "user" → validated_data !! name = Some v →
                 Task_getattr name task = Some v)
    ∧ (validated_data !! "completed" = None → task_completed task = false).
Proof.
  intros Hpk Hcaller Hvalid Hsame (Hc & Hd & Hs).
  destruct (TaskViewSet_perform_create_succeeds view caller validated_data db
              Hcaller Hvalid) as (task & Hrun & Hinit).
  destruct (Task_init_ok _ _ _ Hinit) as [_ Huser].
  rewrite perform_create_user in Huser. injection Huser as Huser.
  exists task, (insert_task task db).
  split_and!; [done| | |].
  - apply TaskViewSet_get_object_found; simpl.
    + assert (pk_unique (TaskViewSet.perform_create view
                (mkSerializer TaskSerializer None validated_data) db).2) as Hpk'.
      { unfold TaskViewSet.perform_create, save. simpl.
        assert (∀ kw, pk_unique (Task_objects_create kw db).2) as Hcreate.
        { intros kw. destruct (Task_objects_create kw db) as [r db'] eqn:E.
          by eapply Task_objects_create_pk_unique. }
        apply Hcreate. }
      by rewrite Hrun in Hpk'.
    + apply elem_of_app. right. left.
    + by rewrite <- Huser.
    + apply lookup_singleton_eq.
    + unfold filter_error. by rewrite Hd, Hs.
    + unfold passes_filters, search_terms. rewrite Hc, Hd, Hs.
      split_and!; [done | done | by intros term ?%elem_of_nil].
  - intros name v Hne Hname. apply (Task_init_getattr _ _ _ _ _ Hinit).
    + intros ->. destruct Hvalid as [Hdom _].
      assert ("id" ∈ dom validated_data) as Hin%Hdom by (apply elem_of_dom; eauto).
      revert Hin. by_compute.
    + by rewrite perform_create_kwargs.
  - intros Hnone. apply (Task_init_completed_default _ _ _ Hinit).
    by rewrite perform_create_kwargs.
Qed.

Lemma created_task_is_found_witness :
  let C := Sample.collaborators in
  let view := Sample.collection (Sample.request (Some Sample.alice) [] []) in
  let fields : dict :=
    list_to_map [("title", VStr "Water plants");
                 ("due_date", VDate (mkdate 2024 6 1))] in
  ∃ task db',
    TaskViewSet.perform_create view (mkSerializer TaskSerializer None fields)
      Sample.db0 = (Ok task, db')
    ∧ GenericAPIView.get_object TaskViewSet.cls
        (mkView (Sample.request (Some Sample.alice) [] [])
           {[ "pk" := task_id task ]}) db' = (Ok task, db')
    ∧ (∀ name v, name ≠ "user" → fields !! name = Some v →
                 Task_getattr name task = Some v)
    ∧ (fields !! "completed" = None → task_completed task = false).
Proof.
  intros C view fields.
  apply (@created_task_is_found C view Sample.alice fields Sample.db0
           (Sample.request (Some Sample.alice) [] [])).
  - by_compute.
  - reflexivity.
  - split; [by_compute|]. unfold accepts. split_and!; vm_compute; eauto.
  - reflexivity.
  - split_and!; by vm_compute.
Defined.

(** ** No permission is ever denied *)

Lemma filter_error_kind `{Collaborators} (request : Request) (e : exn) :
  filter_error request = Some e →
  e ≠ PermissionDenied ∧ e ≠ NotAuthenticated.
Proof.
  unfold filter_error.
  destruct (due_date_param request), (search_param request);
    by intros [= <-].
Qed.

Lemma TaskViewSet_get_object_raises `{Collaborators} view u e db db' :
  request_user (view_request view) = Some u →
  GenericAPIView.get_object TaskViewSet.cls view db = (Raise e, db') →
  e ≠ PermissionDenied ∧ e ≠ NotAuthenticated.
Proof.
  intros Hu. unfold GenericAPIView.get_object.
  pose proof (TaskViewSet_filtered_queryset view u db Hu) as Hq.
  destruct (filter_error (view_request view)) as [e'|] eqn:He.
  { erewrite bind_raise by done. intros [= <- <-].
    by eapply filter_error_kind. }
  destruct Hq as (qs & Hrun & _); erewrite bind_ok by done.
  destruct (view_kwargs view !! "pk") as [pk|];
    [|by intros [= <- <-]].
  unfold bind, lift, ret, get_object_or_404.
  destruct (filter (λ t, task_id t = pk) qs) as [|t [|]];
    by intros [= <- <-].
Qed.

Lemma task_action_run `{Collaborators} action view u db :
  request_user (view_request view) = Some u →
  action ∈ task_actions →
  (∃ e db', action TaskViewSet.cls view db = (Raise e, db')
            ∧ e ≠ PermissionDenied ∧ e ≠ NotAuthenticated)
  ∨ ∃ db', action TaskViewSet.cls view db
           = (Ok (mkResponse HTTP_204_NO_CONTENT BEmpty), db').
Proof.
  intros Hu Hact.
  pose proof (TaskViewSet_get_object_raises view u) as Hget.
  unfold task_actions, serializing_actions in Hact. simpl in Hact.
  repeat (apply elem_of_cons in Hact as [->|Hact]);
    [..|by apply elem_of_nil in Hact].
  - left. rewrite TaskViewSet_create_raises. by eauto.
  - left. rewrite (TaskViewSet_list_raises view u db Hu).
    destruct (filter_error (view_request view)) as [e|] eqn:He; simpl.
    + destruct (filter_error_kind _ _ He). by eauto.
    + by eauto.
  - left. unfold mixins.retrieve, bind.
    destruct (GenericAPIView.get_object TaskViewSet.cls view db)
      as [[obj|e] db'] eqn:E; [by eauto|].
    destruct (Hget e db db' Hu E). by eauto.
  - left. unfold mixins.update, bind.
    destruct (GenericAPIView.get_object TaskViewSet.cls view db)
      as [[obj|e] db'] eqn:E; [by eauto|].
    destruct (Hget e db db' Hu E). by eauto.
  - left. unfold mixins.update, bind.
    destruct (GenericAPIView.get_object TaskViewSet.cls view db)
      as [[obj|e] db'] eqn:E; [by eauto|].
    destruct (Hget e db db' Hu E). by eauto.
  - unfold mixins.destroy, bind.
    destruct (GenericAPIView.get_object TaskViewSet.cls view db)
      as [[obj|e] db'] eqn:E; [right; by eauto|].
    left. destruct (Hget e db db' Hu E). by eauto.
Qed.

(** X14.  An authenticated caller is never refused.  Whatever the action
    and the request, the response to an authenticated caller is neither 401
    nor 403: the permission classes of the task view set let every
    authenticated request through, also on a task of someone else, which is
    then simply not found. *)
Theorem authenticated_caller_is_never_denied `{Collaborators} (view : View)
    (u : Z) (db : DB) (action : ViewSetClass → View → M Response) :
  request_user (view_request view) = Some u →
  action ∈ task_actions →
  status_code (as_view TaskViewSet.cls action view db).1
  ∉ [HTTP_401_UNAUTHORIZED; HTTP_403_FORBIDDEN].
Proof.
  intros Hu Hact. unfold as_view.
  destruct (task_action_run action view u db Hu Hact)
    as [(e & db' & Hrun & Hpd & Hna)|(db' & Hrun)].
  - erewrite dispatch_raise; [|by eapply TaskViewSet_check_permissions|done].
    simpl. destruct e; try done; simpl; by_compute.
  - erewrite dispatch_ok; [|by eapply TaskViewSet_check_permissions|done].
    simpl. by_compute.
Qed.

Lemma authenticated_caller_is_never_denied_witness :
  let C := Sample.collaborators in
  let view := mkView (Sample.request (Some Sample.bob) [] []) {[ "pk" := 1 ]} in
  status_code (as_view TaskViewSet.cls mixins.destroy view Sample.db0).1
  ∉ [HTTP_401_UNAUTHORIZED; HTTP_403_FORBIDDEN].
Proof.
  intros C view.
  apply (@authenticated_caller_is_never_denied C view Sample.bob Sample.db0
           mixins.destroy).
  - reflexivity.
  - do 5 right. left.
Defined.
